(** * playFi: trading research front end, forecast and backtest engine

    A shallow embedding of the TypeScript sources (App.tsx, services/api.ts,
    the AssetSearch component, the shared type declarations) together with
    the properties the specification states about them.

    The first half of the file holds the definitions, the second half the
    lemmas and theorems. *)

From Stdlib Require Import ZArith QArith Lia Uint63 PrimFloat.
From stdpp Require Import base option list gmap strings pretty.

Set Default Proof Using "Type".
Open Scope Z_scope.

(* ===================================================================== *)
(** * Part I: definitions                                                 *)
(* ===================================================================== *)

(** ** JavaScript numbers

    The TypeScript type [number] is an IEEE-754 binary64 value.  The chart
    code only adds, divides and writes literals, so it is embedded over an
    interface of those operations; [float_number] is the arithmetic the
    program runs on, [Q_number] is exact rational arithmetic. *)

Class Number (num : Type) := {
  lit : Z -> num;                 (* an integer literal such as 0, 20 or 50 *)
  add : num -> num -> num;        (* a + b *)
  sub : num -> num -> num;        (* a - b *)
  div : num -> num -> num;        (* a / b *)
  ltb : num -> num -> bool;       (* a < b *)
  leb : num -> num -> bool;       (* a <= b *)
}.

#[export] Instance float_number : Number float := {|
  lit := fun z => if z <? 0
                  then PrimFloat.opp (PrimFloat.of_uint63 (Uint63.of_Z (- z)))
                  else PrimFloat.of_uint63 (Uint63.of_Z z);
  add := PrimFloat.add;
  sub := PrimFloat.sub;
  div := PrimFloat.div;
  ltb := PrimFloat.ltb;
  leb := PrimFloat.leb;
|}.

#[export] Instance Q_number : Number Q := {|
  lit := inject_Z;
  add := Qplus;
  sub := Qminus;
  div := Qdiv;
  ltb := fun a b => negb (Qle_bool b a);
  leb := Qle_bool;
|}.

(** ** Arrays

    [Array.prototype.slice(start, end)]: a negative index counts from the
    end of the array, both indices are clamped to the array, and an empty
    array results when the clamped start is not before the clamped end. *)

Definition relative_index (len i : Z) : Z :=
  if i <? 0 then Z.max (len + i) 0 else Z.min i len.

Definition slice {A} (start end_ : Z) (l : list A) : list A :=
  let len := Z.of_nat (length l) in
  let k := relative_index len start in
  let final := relative_index len end_ in
  take (Z.to_nat (Z.max (final - k) 0)) (drop (Z.to_nat k) l).

(** ** The shared type declarations (types/index.ts) *)

Definition Date := Z.   (* milliseconds since the epoch *)

Record PriceData (num : Type) := mkPriceData {
  timestamp : Date;
  open : num;
  high : num;
  low : num;
  close : num;
  volume : num;
  vwap : option num;
}.
Arguments mkPriceData {num}.
Arguments timestamp {num}.
Arguments open {num}.
Arguments high {num}.
Arguments low {num}.
Arguments close {num}.
Arguments volume {num}.
Arguments vwap {num}.

(** Every field of [TechnicalIndicators] is optional: [None] stands for an
    absent or [undefined] property. *)
Record TechnicalIndicators (num : Type) := mkIndicators {
  sma20 : option num;
  sma50 : option num;
  ema12 : option num;
  ema26 : option num;
  rsi : option num;
  macd : option num;
  macdSignal : option num;
  macdHistogram : option num;
  ind_vwap : option num;
  bollingerUpper : option num;
  bollingerLower : option num;
}.
Arguments mkIndicators {num}.
Arguments sma20 {num}.
Arguments sma50 {num}.
Arguments ema12 {num}.
Arguments ema26 {num}.
Arguments rsi {num}.
Arguments macd {num}.
Arguments macdSignal {num}.
Arguments macdHistogram {num}.
Arguments ind_vwap {num}.
Arguments bollingerUpper {num}.
Arguments bollingerLower {num}.

(** [ChartData extends PriceData] with the [indicators] property; the
    spread [...price] copies the bar. *)
Record ChartData (num : Type) := mkChartData {
  price : PriceData num;
  indicators : TechnicalIndicators num;
}.
Arguments mkChartData {num}.
Arguments price {num}.
Arguments indicators {num}.

(** ** App.tsx, handleAssetSelect: price data to chart data *)

Section Chart.
Context {num : Type} `{Number num}.

(** [priceData.slice(a, b).reduce((sum, p) => sum + p.close, 0)] *)
Definition sum_close (window : list (PriceData num)) : num :=
  foldl (fun sum p => add sum (close p)) (lit 0) window.

(** The moving-average expression of the handler for a window of [n] bars,
    [index >= n-1 ? priceData.slice(index - (n-1), index + 1)
                       .reduce((sum, p) => sum + p.close, 0) / n
                  : undefined];
    the source writes it out for [n = 20] and for [n = 50]. *)
Definition sma (n : Z) (priceData : list (PriceData num)) (index : nat)
  : option num :=
  if Z.of_nat index >=? n - 1
  then Some (div (sum_close (slice (Z.of_nat index - (n - 1))
                                   (Z.of_nat index + 1) priceData))
                 (lit n))
  else None.

(** [priceData.map((price, index) => ({...price, indicators: {...}}))] *)
Definition chartData (priceData : list (PriceData num))
  : list (ChartData num) :=
  imap (fun index price =>
    {| price := price;
       indicators := {|
         sma20 := sma 20 priceData index;
         sma50 := sma 50 priceData index;
         ema12 := None;
         ema26 := None;
         rsi := Some (lit 50);   (* placeholder in the source *)
         macd := Some (lit 0);   (* placeholder in the source *)
         macdSignal := None;
         macdHistogram := None;
         ind_vwap := vwap price;
         bollingerUpper := None;
         bollingerLower := None;
       |} |}) priceData.

(** *** The specification's reading of the indicators *)

(** The close of bar [k] (only used inside the series). *)
Definition close_at (priceData : list (PriceData num)) (k : nat) : num :=
  default (lit 0) (close <$> priceData !! k).

(** The sum of the closes of the [count] bars starting at bar [first],
    taken in bar order. *)
Fixpoint sum_closes (priceData : list (PriceData num)) (first count : nat)
  : num :=
  match count with
  | O => lit 0
  | S c => add (sum_closes priceData first c)
               (close_at priceData (first + c))
  end.

(** The arithmetic mean of the closes of bars [i-n+1 .. i]. *)
Definition mean_closes (n : nat) (priceData : list (PriceData num))
    (i : nat) : num :=
  div (sum_closes priceData (i + 1 - n) n) (lit (Z.of_nat n)).

(** "All recent changes are gains": each of the [n] bar-to-bar changes
    ending at bar [i] is positive. *)
Definition all_gains (n : nat) (priceData : list (PriceData num))
    (i : nat) : bool :=
  forallb (fun k => ltb (lit 0)
                        (sub (close_at priceData (i - k))
                             (close_at priceData (i - k - 1))))
          (seq 0 n).
End Chart.

(** *** Sample series *)

(** A bar whose four prices all equal [c], at time [t], with no volume. *)
Definition flat_bar {num} `{Number num} (t : Date) (c : Z) : PriceData num :=
  {| timestamp := t; open := lit c; high := lit c; low := lit c;
     close := lit c; volume := lit 0; vwap := None |}.

(** Closes 1, 2, ..., [len]: every bar-to-bar change is a gain of 1. *)
Definition rising_series {num} `{Number num} (len : nat) : list (PriceData num) :=
  map (fun k => flat_bar (Z.of_nat k) (Z.of_nat k + 1)) (seq 0 len).


(** ** JavaScript strings

    A string is a sequence of UTF-16 code units; [length] counts them. *)

Definition jsstring := list N.

(** The code units of an ASCII literal. *)
Definition js (s : string) : jsstring :=
  map Ascii.N_of_ascii (String.list_ascii_of_string s).

(** ** JavaScript values (the [any] of services/api.ts)

    A response body is parsed JSON; the mappers add [Date] objects to it.
    An object is a finite map from property names to values. *)

#[warnings="-register-all"]
Inductive JsVal :=
| JUndefined
| JNull
| JBool (b : bool)
| JNumber (x : float)
| JString (s : jsstring)
| JDate (arg : JsVal)                  (* [new Date(arg)] *)
| JArray (items : list JsVal)
| JObject (props : gmap string JsVal).

(** An evaluation that throws is [None]. *)

(** [v.k] for the property names the mappers read ([timestamp], [period],
    [start], [end], [trades], [entryDate], [exitDate]): reading a property
    of [undefined] or [null] throws a TypeError, an object yields the
    property or [undefined], every other value has no such property. *)
Definition get_prop (v : JsVal) (k : string) : option JsVal :=
  match v with
  | JUndefined | JNull => None
  | JObject props => Some (default JUndefined (props !! k))
  | _ => Some JUndefined
  end.

(** The own enumerable properties copied by [{...v}]: those of an object,
    the indexed elements of an array, the code units of a string one by
    one, none otherwise. *)
Definition spread (v : JsVal) : gmap string JsVal :=
  match v with
  | JObject props => props
  | JArray items => list_to_map (imap (fun i x => (pretty i, x)) items)
  | JString s => list_to_map (imap (fun i c => (pretty i, JString [c])) s)
  | _ => ∅
  end.

(** [v.map(f)]: only an array has a [map] method. *)
Definition array_map (f : JsVal -> option JsVal) (v : JsVal) : option JsVal :=
  match v with
  | JArray items => JArray <$> mapM f items
  | _ => None
  end.

(** ** services/api.ts: the response mappers

    Each function takes [response.data], the body the awaited request
    resolved to, and returns what the service function returns. *)



(** [(trade) => ({...trade, entryDate: new Date(trade.entryDate),
                  exitDate: new Date(trade.exitDate)})] *)
Definition backtest_trade (trade : JsVal) : option JsVal :=
  entry ← get_prop trade "entryDate";
  exit_ ← get_prop trade "exitDate";
  Some (JObject (<["exitDate" := JDate exit_]>
                   (<["entryDate" := JDate entry]> (spread trade)))).

(** [backtestService.runBacktest] *)
Definition runBacktest (response_data : JsVal) : option JsVal :=
  period ← get_prop response_data "period";
  start ← get_prop period "start";
  end_ ← get_prop period "end";
  trades ← get_prop response_data "trades";
  mapped ← array_map backtest_trade trades;
  Some (JObject
    (<["trades" := mapped]>
       (<["period" := JObject (<["end" := JDate end_]>
                                 (<["start" := JDate start]> ∅))]>
          (spread response_data)))).



(** ** Assets (types/index.ts) *)

Inductive AssetType := Stock | Crypto | Future | Option_.

Record Asset := mkAsset {
  symbol : string;
  name : string;
  asset_type : AssetType;
  exchange : option string;
  sector : option string;
}.

(** ** App.tsx, handleExport, and the export service of services/api.ts *)

Inductive ExportType := Pdf | Csv.                   (* 'pdf' | 'csv' *)
Inductive DocumentType := DocForecast | DocBacktest. (* 'forecast' | 'backtest' *)

(** The text [${type}] interpolates. *)
Definition export_type_text (type : ExportType) : string :=
  match type with Pdf => "pdf" | Csv => "csv" end.

Section ExportHandler.
(** The forecast object and the blob of a response are opaque to the
    handler. *)
Context {Forecast Blob : Type}.

(** [api.post(url, { data, type }, { responseType: 'blob' })] *)
Record PostRequest := mkPost {
  post_url : string;
  post_data : Forecast;
  post_type : DocumentType;
}.

(** What the handler does to the outside world, in order. *)
Inductive Effect :=
| HttpPost (request : PostRequest)
| CreateObjectURL (blob : Blob)
| ClickDownload (href : Blob) (download : string)
    (* the anchor whose [href] is the object URL of the blob and whose
       [download] attribute is the file name: appended, clicked, removed *)
| RevokeObjectURL (blob : Blob)
| ConsoleError (message : string).

(** The server behind [api]: the blob a request resolves to, or [None]
    when the promise rejects. *)
Variable api_post : PostRequest -> option Blob.

Definition exportToPDF (data : Forecast) (type : DocumentType)
  : list Effect * option Blob :=
  let request := {| post_url := "/export/pdf"; post_data := data;
                    post_type := type |} in
  ([HttpPost request], api_post request).

Definition exportToCSV (data : Forecast) (type : DocumentType)
  : list Effect * option Blob :=
  let request := {| post_url := "/export/csv"; post_data := data;
                    post_type := type |} in
  ([HttpPost request], api_post request).

(** The state the callback closes over. *)
Record AppState := mkAppState {
  selectedAsset : option Asset;
  forecast : option Forecast;
}.

(** [${selectedAsset?.symbol}] *)
Definition symbol_text (st : AppState) : string :=
  match selectedAsset st with
  | Some asset => symbol asset
  | None => "undefined"
  end.

(** [handleExport(type)], with [now] the value of [Date.now()]. *)
Definition handleExport (now : Z) (st : AppState) (type : ExportType)
  : list Effect :=
  match forecast st with
  | None => []                                  (* if (!forecast) return *)
  | Some f =>
      let '(sent, response) := exportToPDF f DocForecast in
      sent ++
      match response with
      | Some blob =>
          [CreateObjectURL blob;
           ClickDownload blob
             ("forecast-" +:+ symbol_text st +:+ "-" +:+ pretty now
                +:+ "." +:+ export_type_text type);
           RevokeObjectURL blob]
      | None => [ConsoleError "Export failed:"]  (* catch (error) *)
      end
  end.

(** The export buttons on screen: the result card is rendered only under
    [forecast && ...], and it shows one button per export type. *)
Definition export_buttons (st : AppState) : list ExportType :=
  match forecast st with
  | Some _ => [Pdf; Csv]
  | None => []
  end.

(** The requests and the downloads of a run. *)
Definition requests_of (effects : list Effect) : list PostRequest :=
  omap (fun e => match e with HttpPost r => Some r | _ => None end) effects.

Definition downloads_of (effects : list Effect) : list (Blob * string) :=
  omap (fun e => match e with
                 | ClickDownload b file => Some (b, file)
                 | _ => None
                 end) effects.
End ExportHandler.

Arguments PostRequest : clear implicits.
Arguments Effect : clear implicits.
Arguments AppState : clear implicits.

(** ** Trimming a JavaScript string *)

(** White space and line terminators, the code units [trim] removes. *)
Definition is_js_whitespace (c : N) : bool :=
  bool_decide (c ∈ [0x0009; 0x000A; 0x000B; 0x000C; 0x000D; 0x0020; 0x00A0;
                    0x1680; 0x2028; 0x2029; 0x202F; 0x205F; 0x3000;
                    0xFEFF]%N)
  || ((0x2000 <=? c) && (c <=? 0x200A))%N.

Fixpoint trimStart (s : jsstring) : jsstring :=
  match s with
  | c :: rest => if is_js_whitespace c then trimStart rest else s
  | [] => []
  end.

Definition trimEnd (s : jsstring) : jsstring := rev (trimStart (rev s)).

Definition trim (s : jsstring) : jsstring := trimEnd (trimStart s).

(** ** The AssetSearch component *)

Record SearchState := mkSearchState {
  searchResults : list Asset;
  isLoading : bool;
  showResults : bool;
}.

Inductive SearchEffect :=
| HttpGet (url : jsstring)
| SearchConsoleError (message : string).

Section Search.
(** [encodeURIComponent] is the built-in: it throws a URIError ([None]) on
    a string with a lone surrogate. *)
Variable encodeURIComponent : jsstring -> option jsstring.

(** The server behind [api]: the assets a GET resolves to, or [None] when
    the promise rejects. *)
Variable api_get : jsstring -> option (list Asset).

(** [assetService.searchAssets(query)] *)
Definition searchAssets (query : jsstring)
  : list SearchEffect * option (list Asset) :=
  match encodeURIComponent query with
  | Some encoded =>
      let url := js "/assets/search?q=" ++ encoded in
      ([HttpGet url], api_get url)
  | None => ([], None)
  end.

(** The function handed to [debounce]: what runs, once the 300 ms delay
    has passed, for the query it was last called with. *)
Definition debouncedSearch (query : jsstring) (st : SearchState)
  : list SearchEffect * SearchState :=
  if (length (trim query) <? 2)%nat then
    ([], {| searchResults := []; isLoading := isLoading st;
            showResults := false |})
  else
    (* setIsLoading(true); try { ... } catch { ... } finally { ... } *)
    let '(sent, response) := searchAssets query in
    match response with
    | Some results =>
        (sent, {| searchResults := results; isLoading := false;
                  showResults := true |})
    | None =>
        (sent ++ [SearchConsoleError "Search error:"],
         {| searchResults := []; isLoading := false;
            showResults := showResults st |})
    end.

Definition search_requests (effects : list SearchEffect) : list jsstring :=
  omap (fun e => match e with HttpGet url => Some url | _ => None end) effects.
End Search.

(** Sample data. *)
Definition sample_asset : Asset :=
  {| symbol := "AAPL"; name := "Apple Inc."; asset_type := Stock;
     exchange := Some "NASDAQ"; sector := None |}.

(** ** The engine: Signal Blender

    The forecast and backtest engine runs on the server and its sources
    are not part of the front end; its parts are embedded from the
    specification, over exact rational arithmetic. *)

(** The statistical prediction: a probability-like score in [0,1] and a
    magnitude estimate. *)
Record MLPrediction := mkPrediction {
  probability : Q;
  magnitude : Q;
}.

Record BlendInput := mkBlendInput {
  rule_strength : Q;                (* strength of the rule-based signal *)
  ml_signal : option MLPrediction;  (* [None]: the ML signal is unavailable *)
  rule_weight : Q;                  (* default 1/2 *)
  ml_weight : Q;                    (* default 1/2 *)
}.

Definition clamp (lo hi x : Q) : Q :=
  if Qlt_le_dec x lo then lo
  else if Qlt_le_dec hi x then hi
  else x.

(** Modelled from the spec: the Signal Blender's weighted combination
    (section 4.3), whose implementation is server code outside the
    front-end sources.  "Blending is a weighted combination (rule-signal
    weight vs. ML-signal weight)"; "if the ML signal is unavailable,
    confidence is computed from rule strength alone".  The signals are
    fractions, the score is on the 0-100 scale. *)
Definition blend_raw (input : BlendInput) : Q :=
  match ml_signal input with
  | Some prediction =>
      (100 * (rule_weight input * rule_strength input
              + ml_weight input * probability prediction))%Q
  | None => (100 * rule_strength input)%Q
  end.

(** Modelled from the spec: the Signal Blender's confidence (section 4.3),
    server code outside the front-end sources: "confidence must be clamped
    to [0,100]". *)
Definition blend_confidence (input : BlendInput) : Q :=
  clamp 0 100 (blend_raw input).

(** Modelled from the spec: the Signal Blender's reward:risk ratio
    (section 4.3 and the glossary), server code outside the front-end
    sources.  "Expected gain divided by expected loss"; "undefined
    (reported as null, not zero) when implied risk is zero". *)
Definition reward_risk_ratio (reward risk : Q) : option Q :=
  if Qeq_bool risk 0 then None else Some (reward / risk)%Q.

(** ** The engine: Backtest Simulator *)

Inductive Direction := Long | Short.                  (* 'long' | 'short' *)
Inductive StrategyType := Equity | Options | Futures | CryptoStrategy.
Inductive Category :=
  CatLong | CatShort | Spread | Straddle | Strangle | IronCondor.
Inductive RiskLevel := Low | Medium | High.

(** [Strategy] of types/index.ts, with the rule set the specification
    gives it (named technical conditions). *)
Record Strategy := mkStrategy {
  strategy_id : string;
  strategy_name : string;
  strategy_type : StrategyType;
  category : Category;
  description : string;
  riskLevel : RiskLevel;
  capitalRequired : Q;
  maxLoss : option Q;
  maxProfit : option Q;
  rule_set : list string;
}.

(** [TradeResult] of types/index.ts. *)
Record TradeResult := mkTrade {
  entryDate : Date;
  exitDate : Date;
  entryPrice : Q;
  exitPrice : Q;
  quantity : Q;
  pnl : Q;
  commission : Q;
  slippage : Q;
  trade_type : Direction;
  reason : string;
}.

(** [BacktestResult] of types/index.ts; the profit factor is null when the
    gross loss is zero (specification, section 4.5). *)
Record BacktestResult := mkBacktestResult {
  bt_strategy : Strategy;
  bt_asset : Asset;
  period_start : Date;
  period_end : Date;
  totalReturn : Q;
  winRate : Q;
  sharpeRatio : Q;
  maxDrawdown : Q;
  totalTrades : nat;
  avgWin : Q;
  avgLoss : Q;
  profitFactor : option Q;
  trades : list TradeResult;
}.

(** An open position: the entry of a trade that has no exit yet. *)
Record Position := mkPosition {
  pos_date : Date;
  pos_price : Q;
  pos_quantity : Q;
  pos_direction : Direction;
  pos_commission : Q;
  pos_slippage : Q;
}.

(** What the specification leaves to the rule evaluator (section 4.2) and
    to documented conventions: the simulator takes them as given. *)
Record Engine := mkEngine {
  (* the entry rules on the bars up to and including the current one:
     a direction when they are satisfied *)
  entry_signal : Strategy -> list (PriceData Q) -> option Direction;
  (* the exit rules (exit condition, stop-loss/take-profit bound, maximum
     holding period) for an open position: the closing reason when one is
     satisfied *)
  exit_signal : Strategy -> Position -> list (PriceData Q) -> option string;
  (* position sizing from the capital and the entry bar *)
  position_size : Strategy -> Q -> PriceData Q -> Q;
  (* cost of one fill at a price for a quantity *)
  commission_of : Q -> Q -> Q;
  slippage_of : Q -> Q -> Q;
  (* the Sharpe ratio under the chosen period convention, and the average
     win and loss, as functions of the trades and the initial capital *)
  sharpe_of : list TradeResult -> Q -> Q;
  avg_win_of : list TradeResult -> Q;
  avg_loss_of : list TradeResult -> Q;
  (* the longest indicator lookback: fewer bars are insufficient data *)
  min_bars : nat;
}.

(** The state of a run: flat or holding one position, and the trades
    closed so far, oldest first. *)
Inductive Phase := Flat | Entered (p : Position).

Record Sim := mkSim {
  phase : Phase;
  closed : list TradeResult;
}.

Definition initial_sim : Sim := {| phase := Flat; closed := [] |}.

Definition signed (d : Direction) (x : Q) : Q :=
  match d with Long => x | Short => (- x)%Q end.

(** Modelled from the spec: entering a position in the Backtest Simulator
    (section 4.5), server code outside the front-end sources: "transition
    to Entered at the bar's close ... minus slippage, minus commission
    recorded against the trade". *)
Definition open_position (E : Engine) (strategy : Strategy) (capital : Q)
    (bar : PriceData Q) (dir : Direction) : Position :=
  let qty := position_size E strategy capital bar in
  {| pos_date := timestamp bar;
     pos_price := close bar;
     pos_quantity := qty;
     pos_direction := dir;
     pos_commission := commission_of E (close bar) qty;
     pos_slippage := slippage_of E (close bar) qty |}.

(** Modelled from the spec: closing a position in the Backtest Simulator
    (sections 3 and 4.5), server code outside the front-end sources: the
    trade is recorded at the bar's close, with "realized P&L net of
    commission and slippage". *)
Definition close_position (E : Engine) (p : Position) (bar : PriceData Q)
    (why : string) : TradeResult :=
  let fees := (pos_commission p
               + commission_of E (close bar) (pos_quantity p))%Q in
  let slip := (pos_slippage p
               + slippage_of E (close bar) (pos_quantity p))%Q in
  {| entryDate := pos_date p;
     exitDate := timestamp bar;
     entryPrice := pos_price p;
     exitPrice := close bar;
     quantity := pos_quantity p;
     pnl := (signed (pos_direction p) (close bar - pos_price p)
             * pos_quantity p - fees - slip)%Q;
     commission := fees;
     slippage := slip;
     trade_type := pos_direction p;
     reason := why |}.

(** Modelled from the spec: one bar of the Backtest Simulator's state
    machine (section 4.5), server code outside the front-end sources.
    "On each bar in chronological order: if Flat, evaluate entry rules; on
    satisfaction, transition to Entered at the bar's close.  While Entered,
    evaluate exit rules each bar; on satisfaction, transition to Closed,
    recording a TradeResult; remain Flat until next entry."  [seen] holds
    the bars up to and including [bar]. *)
Definition sim_step (E : Engine) (strategy : Strategy) (capital : Q)
    (seen : list (PriceData Q)) (bar : PriceData Q) (st : Sim) : Sim :=
  match phase st with
  | Flat =>
      match entry_signal E strategy seen with
      | Some dir =>
          {| phase := Entered (open_position E strategy capital bar dir);
             closed := closed st |}
      | None => st
      end
  | Entered p =>
      match exit_signal E strategy p seen with
      | Some why =>
          {| phase := Flat;
             closed := closed st ++ [close_position E p bar why] |}
      | None => st
      end
  end.

(** The bars of [rest] in order, after the bars of [seen]. *)
Fixpoint sim_run (E : Engine) (strategy : Strategy) (capital : Q)
    (seen rest : list (PriceData Q)) (st : Sim) : Sim :=
  match rest with
  | [] => st
  | bar :: rest' =>
      sim_run E strategy capital (seen ++ [bar]) rest'
        (sim_step E strategy capital (seen ++ [bar]) bar st)
  end.

(** Modelled from the spec: the end of a run of the Backtest Simulator
    (section 4.5), server code outside the front-end sources: "at series
    end, any still-Entered position is force-closed at the final bar's
    close with reason 'period end'". *)
Definition sim_finish (E : Engine) (series : list (PriceData Q)) (st : Sim)
  : list TradeResult :=
  match phase st, last series with
  | Entered p, Some bar => closed st ++ [close_position E p bar "period end"]
  | _, _ => closed st
  end.

(** *** Input validation *)

Fixpoint strictly_increasing (times : list Z) : bool :=
  match times with
  | a :: (b :: _) as later => (a <? b) && strictly_increasing later
  | _ => true
  end.

(** Modelled from the spec: the engine's input check (sections 3, 6 and
    7), server code outside the front-end sources: strictly increasing
    timestamps, non-negative volumes, and at least as many bars as the
    longest lookback. *)
Definition valid_series (E : Engine) (series : list (PriceData Q)) : bool :=
  (min_bars E <=? length series)%nat
  && strictly_increasing (timestamp <$> series)
  && forallb (fun bar => Qle_bool 0 (volume bar)) series.

(** *** Aggregate metrics *)

Definition Qsum (xs : list Q) : Q := foldr Qplus 0%Q xs.

Definition is_win (t : TradeResult) : bool := negb (Qle_bool (pnl t) 0).
Definition is_loss (t : TradeResult) : bool := negb (Qle_bool 0 (pnl t)).

(** Modelled from the spec: the win rate of a BacktestResult (sections 3
    and 8), server code outside the front-end sources: "trades with
    positive P&L / totalTrades; 0 when totalTrades = 0". *)
Definition win_rate (ts : list TradeResult) : Q :=
  match length ts with
  | O => 0%Q
  | S _ => (inject_Z (Z.of_nat (length (filter (fun t => is_win t = true) ts)))
            / inject_Z (Z.of_nat (length ts)))%Q
  end.

(** Largest peak-to-trough decline of the equity curve that starts at
    [equity] and moves by each P&L in turn. *)
Fixpoint max_drawdown (peak equity worst : Q) (pnls : list Q) : Q :=
  match pnls with
  | [] => worst
  | x :: later =>
      let equity' := (equity + x)%Q in
      let peak' := if Qlt_le_dec peak equity' then equity' else peak in
      let decline := (peak' - equity')%Q in
      max_drawdown peak' equity'
        (if Qlt_le_dec worst decline then decline else worst) later
  end.

Definition profit_factor (ts : list TradeResult) : option Q :=
  let gross_profit := Qsum (pnl <$> filter (fun t => is_win t = true) ts) in
  let gross_loss := (- Qsum (pnl <$> filter (fun t => is_loss t = true) ts))%Q in
  if Qeq_bool gross_loss 0 then None else Some (gross_profit / gross_loss)%Q.

(** Modelled from the spec: the aggregation of a run into a BacktestResult
    (sections 3 and 4.5), server code outside the front-end sources. *)
Definition summarize (E : Engine) (series : list (PriceData Q))
    (strategy : Strategy) (asset : Asset) (initialCapital : Q)
    (ts : list TradeResult) : BacktestResult :=
  {| bt_strategy := strategy;
     bt_asset := asset;
     period_start := default 0 (timestamp <$> head series);
     period_end := default 0 (timestamp <$> last series);
     totalReturn := (Qsum (pnl <$> ts) / initialCapital)%Q;
     winRate := win_rate ts;
     sharpeRatio := sharpe_of E ts initialCapital;
     maxDrawdown := max_drawdown initialCapital initialCapital 0 (pnl <$> ts);
     totalTrades := length ts;
     avgWin := avg_win_of E ts;
     avgLoss := avg_loss_of E ts;
     profitFactor := profit_factor ts;
     trades := ts |}.

Inductive Outcome :=
| InvalidInputError
| Completed (result : BacktestResult).

(** Modelled from the spec: the Backtest Simulator (section 4.5), server
    code outside the front-end sources: validate the series, replay it bar
    by bar from the flat state, force-close at the end, aggregate. *)
Definition backtest (E : Engine) (series : list (PriceData Q))
    (strategy : Strategy) (asset : Asset) (initialCapital : Q) : Outcome :=
  if valid_series E series then
    let final := sim_run E strategy initialCapital [] series initial_sim in
    Completed (summarize E series strategy asset initialCapital
                 (sim_finish E series final))
  else InvalidInputError.

(** *** The state machine as a transition relation *)

Section BacktestRelation.
Variable E : Engine.
Variable strategy : Strategy.
Variable capital : Q.

Inductive step_rel (seen : list (PriceData Q)) (bar : PriceData Q)
  : Sim -> Sim -> Prop :=
| step_enter st dir :
    phase st = Flat ->
    entry_signal E strategy seen = Some dir ->
    step_rel seen bar st
      {| phase := Entered (open_position E strategy capital bar dir);
         closed := closed st |}
| step_wait st :
    phase st = Flat ->
    entry_signal E strategy seen = None ->
    step_rel seen bar st st
| step_exit st p why :
    phase st = Entered p ->
    exit_signal E strategy p seen = Some why ->
    step_rel seen bar st
      {| phase := Flat;
         closed := closed st ++ [close_position E p bar why] |}
| step_hold st p :
    phase st = Entered p ->
    exit_signal E strategy p seen = None ->
    step_rel seen bar st st.

Inductive run_rel : list (PriceData Q) -> list (PriceData Q)
                    -> Sim -> Sim -> Prop :=
| run_done seen st : run_rel seen [] st st
| run_bar seen bar rest st st' st'' :
    step_rel (seen ++ [bar]) bar st st' ->
    run_rel (seen ++ [bar]) rest st' st'' ->
    run_rel seen (bar :: rest) st st''.

Inductive finish_rel (series : list (PriceData Q))
  : Sim -> list TradeResult -> Prop :=
| finish_flat st :
    phase st = Flat -> finish_rel series st (closed st)
| finish_forced st p bar :
    phase st = Entered p ->
    last series = Some bar ->
    finish_rel series st
      (closed st ++ [close_position E p bar "period end"]).

Inductive backtest_rel (series : list (PriceData Q)) (asset : Asset)
  : Outcome -> Prop :=
| backtest_rejected :
    valid_series E series = false ->
    backtest_rel series asset InvalidInputError
| backtest_completed st ts :
    valid_series E series = true ->
    run_rel [] series initial_sim st ->
    finish_rel series st ts ->
    backtest_rel series asset
      (Completed (summarize E series strategy asset capital ts)).
End BacktestRelation.

(** Two trades overlap at time [T] when both are open then. *)
Definition open_at (T : Date) (t : TradeResult) : Prop :=
  entryDate t <= T <= exitDate t.

(** *** Properties of a trade list and of a run *)

(** Each trade is closed before the next one is entered. *)
Definition sequential (ts : list TradeResult) : Prop :=
  forall i j a b, (i < j)%nat -> ts !! i = Some a -> ts !! j = Some b ->
                  exitDate a < entryDate b.

(** The invariant of a run at time [now], the timestamp of the last bar
    processed: the closed trades all ended by [now], each strictly after
    its entry, one after the other, and a position still open was entered
    by [now], after every closed trade. *)
Definition sim_inv (now : Date) (st : Sim) : Prop :=
  Forall (fun t => entryDate t < exitDate t /\ exitDate t <= now) (closed st)
  /\ sequential (closed st)
  /\ match phase st with
     | Flat => True
     | Entered p =>
         pos_date p <= now
         /\ Forall (fun t => exitDate t < pos_date p) (closed st)
     end.

(** The number of trades with a positive P&L, counted one by one. *)
Fixpoint count_wins (ts : list TradeResult) : nat :=
  match ts with
  | [] => 0
  | t :: later =>
      (if Qlt_le_dec 0 (pnl t) then 1 else 0) + count_wins later
  end%nat.

(** *** Sample engines and series *)

(** An engine whose entry rule fires on every bar and whose exit rule
    fires on every bar, trading one unit at no cost. *)
Definition eager_engine : Engine :=
  {| entry_signal := fun _ _ => Some Long;
     exit_signal := fun _ _ _ => Some "signal reversed";
     position_size := fun _ _ _ => 1%Q;
     commission_of := fun _ _ => 0%Q;
     slippage_of := fun _ _ => 0%Q;
     sharpe_of := fun _ _ => 0%Q;
     avg_win_of := fun _ => 0%Q;
     avg_loss_of := fun _ => 0%Q;
     min_bars := 1 |}.

Definition sample_strategy : Strategy :=
  {| strategy_id := "momentum-long"; strategy_name := "Momentum";
     strategy_type := Equity; category := CatLong;
     description := "Long momentum"; riskLevel := Medium;
     capitalRequired := 1000; maxLoss := None; maxProfit := None;
     rule_set := ["close > 0"] |}.

(* --------------------------------------------------------------------- *)
(** ** Further code of the cited files                                    *)
(* --------------------------------------------------------------------- *)

(** *** services/api.ts: the other response mappers *)






(** *** TradingChart.tsx: the rows handed to the chart library *)

(** [{...item, timestamp: item.timestamp.getTime(), sma20:
    item.indicators.sma20, ...}] *)
Record ChartRow (num : Type) := mkChartRow {
  row_item : ChartData num;        (* the spread [...item] *)
  row_timestamp : Z;               (* [getTime()]: milliseconds *)
  row_sma20 : option num;
  row_sma50 : option num;
  row_rsi : option num;
  row_macd : option num;
  row_vwap : option num;
}.
Arguments mkChartRow {num}.
Arguments row_item {num}.
Arguments row_timestamp {num}.
Arguments row_sma20 {num}.
Arguments row_sma50 {num}.
Arguments row_rsi {num}.
Arguments row_macd {num}.
Arguments row_vwap {num}.

(** The [chartData] memo of the [TradingChart] component. *)
Definition chart_rows {num} (data : list (ChartData num))
  : list (ChartRow num) :=
  imap (fun index item =>
    {| row_item := item;
       row_timestamp := timestamp (price item);
       row_sma20 := sma20 (indicators item);
       row_sma50 := sma50 (indicators item);
       row_rsi := rsi (indicators item);
       row_macd := macd (indicators item);
       row_vwap := ind_vwap (indicators item) |}) data.

(** *** App.tsx: the price in the chart header *)

(** Truthiness of a number: every number but [0], [-0] and [NaN]. *)
Definition truthy_number (x : float) : bool :=
  negb (PrimFloat.is_nan x) && negb (PrimFloat.eqb x 0).

(** [chartData[chartData.length - 1]?.close || 0] *)
Definition header_price (chart : list (ChartData float)) : float :=
  match last chart with
  | Some item =>
      if truthy_number (close (price item)) then close (price item)
      else 0%float
  | None => 0%float
  end.

(** *** App.tsx: the indicator toggles *)

(** [setShowIndicators(prev => ({ ...prev, [key]: !prev[key] }))]: a
    missing key reads as [undefined], which negates to [true]. *)
Definition toggleIndicator (key : string) (prev : gmap string bool)
  : gmap string bool :=
  <[key := negb (default false (prev !! key))]> prev.

(** The initial [showIndicators]. *)
Definition initial_showIndicators : gmap string bool :=
  <["sma20" := true]> (<["sma50" := true]> (<["rsi" := false]>
  (<["macd" := false]> (<["volume" := false]> (<["vwap" := true]> ∅))))).

(** *** App.tsx: the handlers of the [TradingApp] component *)

Inductive TimeFrame :=
  TF_1h | TF_4h | TF_1d | TF_1w | TF_1M | TF_3M | TF_6M | TF_1Y | TF_3Y
| TF_5Y | TF_YTD.

Inductive AppEffect :=
| GetHistoricalData (symbol : string) (timeframe : TimeFrame)
| PostForecast (symbol strategyId : string) (timeframe : TimeFrame)
| AppConsoleError (message : string).

Section TradingApp.
Context {num : Type} `{Number num} {Forecast : Type}.

(** The state hooks of [TradingApp]. *)
Record TradingApp := mkTradingApp {
  app_selectedAsset : option Asset;
  app_selectedStrategy : option Strategy;
  app_selectedTimeframe : TimeFrame;
  app_forecast : option Forecast;
  app_chartData : list (ChartData num);
  app_isLoadingForecast : bool;
  app_isLoadingChart : bool;
  app_showIndicators : gmap string bool;
}.

(** The servers behind [priceService.getHistoricalData] and
    [forecastService.generateForecast]: the mapped response, or [None] when
    the promise rejects. *)
Variable get_prices : string -> TimeFrame -> option (list (PriceData num)).
Variable post_forecast : string -> string -> TimeFrame -> option Forecast.

(** [handleAssetSelect(asset)] *)
Definition handleAssetSelect (app : TradingApp) (asset : Asset)
  : list AppEffect * TradingApp :=
  let request := GetHistoricalData (symbol asset) (app_selectedTimeframe app) in
  match get_prices (symbol asset) (app_selectedTimeframe app) with
  | Some priceData =>
      ([request],
       {| app_selectedAsset := Some asset;            (* setSelectedAsset *)
          app_selectedStrategy := app_selectedStrategy app;
          app_selectedTimeframe := app_selectedTimeframe app;
          app_forecast := None;                       (* setForecast(undefined) *)
          app_chartData := chartData priceData;       (* setChartData *)
          app_isLoadingForecast := app_isLoadingForecast app;
          app_isLoadingChart := false;                (* finally *)
          app_showIndicators := app_showIndicators app |})
  | None =>
      ([request; AppConsoleError "Failed to load chart data:"],
       {| app_selectedAsset := Some asset;
          app_selectedStrategy := app_selectedStrategy app;
          app_selectedTimeframe := app_selectedTimeframe app;
          app_forecast := None;
          app_chartData := app_chartData app;
          app_isLoadingForecast := app_isLoadingForecast app;
          app_isLoadingChart := false;
          app_showIndicators := app_showIndicators app |})
  end.

(** [handleStrategySelect(strategy)] *)
Definition handleStrategySelect (app : TradingApp) (strategy : Strategy)
  : TradingApp :=
  {| app_selectedAsset := app_selectedAsset app;
     app_selectedStrategy := Some strategy;
     app_selectedTimeframe := app_selectedTimeframe app;
     app_forecast := None;
     app_chartData := app_chartData app;
     app_isLoadingForecast := app_isLoadingForecast app;
     app_isLoadingChart := app_isLoadingChart app;
     app_showIndicators := app_showIndicators app |}.



(** What [handleExport] closes over. *)
Definition export_view (app : TradingApp) : AppState Forecast :=
  {| selectedAsset := app_selectedAsset app; forecast := app_forecast app |}.

End TradingApp.

Arguments TradingApp : clear implicits.

(** *** The AssetSearch component: choosing a result *)

(** [handleAssetSelect(asset)] of [AssetSearch]: [onAssetSelect(asset);
    setShowResults(false); setSearchQuery('')].  The result is the asset
    handed to the parent, the new query and the new state. *)
Definition search_handleAssetSelect (asset : Asset) (st : SearchState)
  : Asset * jsstring * SearchState :=
  (asset, [],
   {| searchResults := searchResults st; isLoading := isLoading st;
      showResults := false |}).

(** *** The StrategySelector component *)

Definition strategy_type_text (t : StrategyType) : string :=
  match t with
  | Equity => "equity" | Options => "options" | Futures => "futures"
  | CryptoStrategy => "crypto"
  end.

Definition asset_type_text (t : AssetType) : string :=
  match t with
  | Stock => "stock" | Crypto => "crypto" | Future => "future"
  | Option_ => "option"
  end.

(** [strategies.filter(strategy => selectedType === 'all' ||
    strategy.type === selectedType)] *)
Definition filteredStrategies (strategies : list Strategy)
    (selectedType : string) : list Strategy :=
  filter (fun strategy =>
            selectedType = "all"
            \/ strategy_type_text (strategy_type strategy) = selectedType)
         strategies.

(** The filter buttons: [['all', 'equity', 'options', 'futures', 'crypto']] *)
Definition strategyTypes : list string :=
  ["all"; "equity"; "options"; "futures"; "crypto"].

(** [strategyService.getStrategies(assetType)]: the URL requested,
    [`/strategies${assetType ? `?type=${assetType}` : ''}`]; an empty
    string is falsy. *)
Definition getStrategies_url (assetType : option string) : string :=
  "/strategies" +:+
  match assetType with
  | Some t => if decide (t = "") then "" else "?type=" +:+ t
  | None => ""
  end.

Record SelectorState := mkSelectorState {
  strategies : list Strategy;
  selector_isLoading : bool;
}.

(** The effect of [StrategySelector]: [loadStrategies()] for the asset in
    [selectedAsset]; [api_get] is the server. *)
Definition loadStrategies (api_get : string -> option (list Strategy))
    (selectedAsset : option Asset) (st : SelectorState)
  : string * SelectorState :=
  let assetType := asset_type_text <$> (asset_type <$> selectedAsset) in
  let url := getStrategies_url assetType in
  match api_get url with
  | Some data => (url, {| strategies := data; selector_isLoading := false |})
  | None => (url, {| strategies := strategies st;
                     selector_isLoading := false |})
  end.

(** *** The ForecastResult component: colours and badges *)

Section ForecastDisplay.
Context {num : Type} `{Number num}.





End ForecastDisplay.


(** A backtest response whose period carries a property beyond the two
    dates. *)
Definition labelled_backtest_response : JsVal :=
  JObject (<["period" := JObject (<["start" := JString (js "2024-01-01")]>
                                    (<["end" := JString (js "2024-02-01")]>
                                    (<["label" := JString (js "January")]> ∅)))]>
          (<["trades" := JArray []]> ∅)).


(* ===================================================================== *)
(** * Part II: lemmas and theorems                                        *)
(* ===================================================================== *)

(** ** Arrays *)

Lemma slice_in_range {A} (l : list A) (s e : nat) :
  (s <= e)%nat -> (e <= length l)%nat ->
  slice (Z.of_nat s) (Z.of_nat e) l = take (e - s) (drop s l).
Proof.
  intros Hse Hel. unfold slice, relative_index.
  destruct (Z.ltb_spec (Z.of_nat s) 0); [lia|].
  destruct (Z.ltb_spec (Z.of_nat e) 0); [lia|].
  rewrite !Z.min_l by lia. rewrite Z.max_l by lia.
  f_equal; [lia|]. f_equal. lia.
Qed.

(** A slice that ends at [e] reads no element from position [e] on. *)
Lemma slice_prefix {A} (l1 l2 : list A) (s e : nat) :
  (s <= e)%nat -> (e <= length l1)%nat ->
  take e l1 = take e l2 ->
  slice (Z.of_nat s) (Z.of_nat e) l1 = slice (Z.of_nat s) (Z.of_nat e) l2.
Proof.
  intros Hse He1 Hpre.
  assert (He2 : (e <= length l2)%nat).
  { apply (f_equal length) in Hpre. rewrite !length_take in Hpre. lia. }
  rewrite !slice_in_range by done.
  rewrite !take_drop_commute.
  replace (s + (e - s))%nat with e by lia. by rewrite Hpre.
Qed.

Section ChartFacts.
Context {num : Type} `{Number num}.
Implicit Types priceData : list (PriceData num).

Lemma sum_close_take priceData first count :
  (first + count <= length priceData)%nat ->
  sum_close (take count (drop first priceData))
  = sum_closes priceData first count.
Proof.
  intros Hlen. induction count as [|c IH]; simpl.
  - by rewrite take_0.
  - destruct (lookup_lt_is_Some_2 priceData (first + c)) as [p Hp]; [lia|].
    rewrite (take_S_r _ _ p) by (by rewrite lookup_drop).
    unfold sum_close in *. rewrite foldl_snoc, IH by lia.
    unfold close_at. by rewrite Hp.
Qed.

Lemma sma_defined (n : nat) priceData i :
  (1 <= n)%nat -> (n - 1 <= i)%nat -> (i < length priceData)%nat ->
  sma (Z.of_nat n) priceData i = Some (mean_closes n priceData i).
Proof.
  intros Hn Hi Hlen. unfold sma, mean_closes.
  destruct (Z.geb_spec (Z.of_nat i) (Z.of_nat n - 1)); [|lia].
  replace (Z.of_nat i - (Z.of_nat n - 1)) with (Z.of_nat (i + 1 - n)) by lia.
  replace (Z.of_nat i + 1) with (Z.of_nat (i + 1)) by lia.
  rewrite slice_in_range by lia.
  replace (i + 1 - (i + 1 - n))%nat with n by lia.
  rewrite sum_close_take by lia. done.
Qed.

Lemma sma_undefined (n : nat) priceData i :
  (i < n - 1)%nat -> sma (Z.of_nat n) priceData i = None.
Proof.
  intros Hi. unfold sma.
  destruct (Z.geb_spec (Z.of_nat i) (Z.of_nat n - 1)); [lia|done].
Qed.

Lemma chartData_lookup priceData i :
  chartData priceData !! i
  = (fun p => {| price := p;
                 indicators := {|
                   sma20 := sma 20 priceData i;
                   sma50 := sma 50 priceData i;
                   ema12 := None; ema26 := None;
                   rsi := Some (lit 50); macd := Some (lit 0);
                   macdSignal := None; macdHistogram := None;
                   ind_vwap := vwap p;
                   bollingerUpper := None; bollingerLower := None |} |})
    <$> priceData !! i.
Proof. unfold chartData. by rewrite list_lookup_imap. Qed.
End ChartFacts.

Section ChartTheorems.
Context {num : Type} `{Number num}.
Implicit Types priceData : list (PriceData num).

(** C1.  For a window of [n >= 1] bars and a bar [i] of the series:
    when [i >= n-1] the moving average computed for bar [i] is the
    arithmetic mean of the closes of bars [i-n+1 .. i], and when
    [i < n-1] it is undefined.  The chart data has one entry per bar, and
    the entry of bar [i] carries that bar, with [sma20] and [sma50] the
    instances [n = 20] and [n = 50]: the mean of the last 20 (50) closes
    from bar 19 (49) on, undefined before. *)
Theorem sma_is_mean_of_window (n : nat) priceData i :
  (1 <= n)%nat -> (i < length priceData)%nat ->
  ((n - 1 <= i)%nat ->
     sma (Z.of_nat n) priceData i = Some (mean_closes n priceData i))
  /\ ((i < n - 1)%nat -> sma (Z.of_nat n) priceData i = None)
  /\ length (chartData priceData) = length priceData
  /\ exists bar,
       chartData priceData !! i = Some bar
       /\ priceData !! i = Some (price bar)
       /\ sma20 (indicators bar)
          = (if decide (19 <= i)%nat
             then Some (mean_closes 20 priceData i) else None)
       /\ sma50 (indicators bar)
          = (if decide (49 <= i)%nat
             then Some (mean_closes 50 priceData i) else None).
Proof.
  intros Hn Hlen. split; [|split; [|split]].
  - intros Hi. by apply sma_defined.
  - apply sma_undefined.
  - unfold chartData. by rewrite length_imap.
  - destruct (lookup_lt_is_Some_2 priceData i Hlen) as [p Hp].
    eexists. rewrite chartData_lookup, Hp. simpl.
    split; [reflexivity|]. split; [reflexivity|]. simpl. split.
    + case_decide.
      * apply (sma_defined 20 priceData i); lia.
      * apply (sma_undefined 20 priceData i); lia.
    + case_decide.
      * apply (sma_defined 50 priceData i); lia.
      * apply (sma_undefined 50 priceData i); lia.
Qed.

(** The moving average of bar [i] reads bars [0 .. i] only. *)
Lemma sma_prefix (n : Z) priceData1 priceData2 i :
  1 <= n ->
  take (S i) priceData1 = take (S i) priceData2 ->
  sma n priceData1 i = sma n priceData2 i.
Proof.
  intros Hn Hpre. unfold sma.
  destruct (Z.geb_spec (Z.of_nat i) (n - 1)) as [Hi|]; [|done].
  destruct (decide (i < length priceData1)%nat) as [Hlt|Hge].
  - do 3 f_equal.
    replace (Z.of_nat i - (n - 1)) with (Z.of_nat (Z.to_nat (Z.of_nat i - (n - 1))))
      by lia.
    replace (Z.of_nat i + 1) with (Z.of_nat (S i)) by lia.
    apply slice_prefix; [lia|lia|done].
  - assert (Hlen : length (take (S i) priceData2) = length priceData1).
    { rewrite <- Hpre. rewrite length_take. lia. }
    rewrite length_take in Hlen.
    rewrite take_ge in Hpre by lia.
    rewrite take_ge in Hpre by lia. by subst.
Qed.

(** The indicator record of bar [i] is a function of bars [0 .. i]. *)
Lemma chart_indicators_prefix priceData1 priceData2 i :
  take (S i) priceData1 = take (S i) priceData2 ->
  indicators <$> chartData priceData1 !! i
  = indicators <$> chartData priceData2 !! i.
Proof.
  intros Hpre. rewrite !chartData_lookup.
  assert (Hi : priceData1 !! i = priceData2 !! i).
  { rewrite <- (lookup_take_lt priceData1 (S i) i) by lia.
    rewrite <- (lookup_take_lt priceData2 (S i) i) by lia.
    by rewrite Hpre. }
  rewrite Hi. destruct (priceData2 !! i) as [p|]; [|done]. simpl.
  by rewrite (sma_prefix 20 _ _ _ ltac:(lia) Hpre),
             (sma_prefix 50 _ _ _ ltac:(lia) Hpre).
Qed.

(** Replacing a later bar leaves the indicators of an earlier bar as they
    were. *)
Lemma indicators_future_bar_irrelevant priceData i j bar :
  (i < j)%nat ->
  indicators <$> chartData (<[j:=bar]> priceData) !! i
  = indicators <$> chartData priceData !! i.
Proof.
  intros Hij. apply chart_indicators_prefix.
  by rewrite take_insert_ge by lia.
Qed.

(** C3.  Two price series that agree on bars [0 .. i] have the same
    indicator values at bar [i]: no indicator of the chart looks at a
    bar after its own, and replacing any later bar changes nothing at
    bar [i]. *)
Theorem indicators_no_lookahead priceData1 priceData2 i :
  take (S i) priceData1 = take (S i) priceData2 ->
  indicators <$> chartData priceData1 !! i
  = indicators <$> chartData priceData2 !! i
  /\ forall j bar, (i < j)%nat ->
       indicators <$> chartData (<[j:=bar]> priceData1) !! i
       = indicators <$> chartData priceData2 !! i.
Proof.
  intros Hpre. split; [by apply chart_indicators_prefix|].
  intros j bar Hij. rewrite indicators_future_bar_irrelevant by done.
  by apply chart_indicators_prefix.
Qed.

(** The relative-strength value of every bar of the chart is the
    literal 50. *)
Lemma rsi_is_literal_50 priceData i bar :
  chartData priceData !! i = Some bar -> rsi (indicators bar) = Some (lit 50).
Proof.
  rewrite chartData_lookup. destruct (priceData !! i); [|done].
  by intros [= <-].
Qed.
End ChartTheorems.

Lemma sma_is_mean_of_window_witness :
  (sma 3 (rising_series (num:=float) 5) 4 = Some 4%float
   /\ sma 3 (rising_series (num:=float) 5) 1 = None)
  /\ length (chartData (rising_series (num:=float) 50)) = 50%nat
  /\ (sma20 ∘ indicators) <$> chartData (rising_series (num:=float) 50) !! 49%nat
     = Some (Some 40.5%float)
  /\ (sma50 ∘ indicators) <$> chartData (rising_series (num:=float) 50) !! 49%nat
     = Some (Some 25.5%float)
  /\ (sma20 ∘ indicators) <$> chartData (rising_series (num:=float) 50) !! 18%nat
     = Some None
  /\ (sma50 ∘ indicators) <$> chartData (rising_series (num:=float) 50) !! 48%nat
     = Some None.
Proof.
  destruct (sma_is_mean_of_window (num:=float) 3 (rising_series 5) 4)
    as (Hdef & _ & _); [lia | simpl; lia |].
  destruct (sma_is_mean_of_window (num:=float) 3 (rising_series 5) 1)
    as (_ & Hundef & _); [lia | simpl; lia |].
  destruct (sma_is_mean_of_window (num:=float) 20 (rising_series 50) 49)
    as (_ & _ & Hlen & bar49 & Hbar49 & _ & H20 & H50);
    [lia | vm_compute; lia |].
  destruct (sma_is_mean_of_window (num:=float) 20 (rising_series 50) 18)
    as (_ & _ & _ & bar18 & Hbar18 & _ & H20' & _);
    [lia | vm_compute; lia |].
  destruct (sma_is_mean_of_window (num:=float) 50 (rising_series 50) 48)
    as (_ & _ & _ & bar48 & Hbar48 & _ & _ & H50');
    [lia | vm_compute; lia |].
  split; [split|].
  - transitivity (Some (mean_closes (num:=float) 3 (rising_series 5) 4));
      [exact (Hdef ltac:(lia)) | reflexivity].
  - exact (Hundef ltac:(lia)).
  - split; [rewrite Hlen; reflexivity|].
    rewrite Hbar49, Hbar18, Hbar48. simpl.
    rewrite H20, H50, H20', H50'.
    repeat split; vm_compute; reflexivity.
Defined.

Lemma indicators_no_lookahead_witness :
  indicators <$> chartData (rising_series (num:=float) 3) !! 1%nat
  = indicators <$> chartData (rising_series (num:=float) 2) !! 1%nat.
Proof. apply (indicators_no_lookahead (num:=float)). reflexivity. Defined.

(** C2.  On the series with closes 1, 2, ..., 16 every one of the last 14
    changes is a gain, and the value the chart reports for the last bar is
    50: it lies in [0,100], and it is not the 100 that an all-gains window
    calls for. *)
Theorem rsi_of_rising_series :
  all_gains 14 (rising_series (num:=float) 16) 15 = true
  /\ (rsi ∘ indicators) <$> chartData (rising_series (num:=float) 16) !! 15%nat
     = Some (Some 50%float)
  /\ leb (lit 0) 50%float && leb 50%float (lit 100) = true
  /\ 50%float <> 100%float.
Proof.
  split; [reflexivity|]. split; [reflexivity|]. split; [reflexivity|].
  intros Heq. apply (f_equal (fun x => PrimFloat.eqb x 100)) in Heq.
  vm_compute in Heq. discriminate.
Qed.

(** ** The response mappers *)






(** ** Export *)

Lemma string_append_assoc (a b c : string) :
  (a +:+ b) +:+ c = a +:+ (b +:+ c).
Proof.
  induction a as [|ch a IH]; [done|].
  change (String ch ((a +:+ b) +:+ c) = String ch (a +:+ (b +:+ c))).
  by rewrite IH.
Qed.

Section ExportTheorems.
Context {Forecast Blob : Type}.
Variable api_post : PostRequest Forecast -> option Blob.

(** C8.  Whenever an export button is on screen there is a forecast [f],
    and for either export type the handler sends exactly one request, the
    POST of [f] to the PDF endpoint with document type 'forecast'.  When
    that request resolves to a blob, the handler creates an object URL for
    that blob, downloads it as
    [forecast-<symbol>-<now>.<type>], where [<symbol>] is the selected
    asset's symbol (the text [undefined] without one) and [<type>] is [pdf]
    or [csv] as requested, and revokes the URL.  So the two export types
    send the same request and differ in the file extension only: 'csv'
    saves the PDF endpoint's blob under a name ending in [.csv]. *)
Theorem export_always_uses_pdf_endpoint (now : Z) (st : AppState Forecast) :
  export_buttons st <> [] ->
  exists f,
    forecast st = Some f
    /\ export_buttons st = [Pdf; Csv]
    /\ forall type,
         type ∈ export_buttons st ->
         let effects := handleExport api_post now st type in
         let request := {| post_url := "/export/pdf"; post_data := f;
                           post_type := DocForecast |} in
         let stem :=
           "forecast-"
           +:+ match selectedAsset st with
               | Some asset => symbol asset
               | None => "undefined"
               end
           +:+ "-" +:+ pretty now +:+ "." in
         let file := stem +:+ match type with
                              | Pdf => "pdf"
                              | Csv => "csv"
                              end in
         requests_of effects = [request]
         /\ requests_of effects
            = requests_of (handleExport api_post now st Pdf)
         /\ forall blob,
              api_post request = Some blob ->
              effects = [HttpPost request;
                         CreateObjectURL blob;
                         ClickDownload blob file;
                         RevokeObjectURL blob]
              /\ downloads_of effects = [(blob, file)]
              /\ (type = Csv ->
                  downloads_of effects = [(blob, stem +:+ "csv")]
                  /\ downloads_of (handleExport api_post now st Pdf)
                     = [(blob, stem +:+ "pdf")]).
Proof.
  unfold export_buttons. intros Hshown.
  destruct (forecast st) as [f|] eqn:Hf; [|done].
  exists f. split; [done|]. split; [done|].
  intros type _. unfold handleExport, symbol_text. rewrite Hf. simpl.
  destruct (api_post _) as [blob|] eqn:Hpost.
  - split; [done|]. split; [done|]. intros ? [= <-]. simpl.
    assert (Hname : forall ext : string,
              "forecast-" +:+ match selectedAsset st with
                              | Some asset => symbol asset
                              | None => "undefined"
                              end +:+ "-" +:+ pretty now +:+ "." +:+ ext
              = ("forecast-" +:+ match selectedAsset st with
                                  | Some asset => symbol asset
                                  | None => "undefined"
                                  end +:+ "-" +:+ pretty now +:+ ".")
                +:+ ext).
    { intros ext. by rewrite !string_append_assoc. }
    rewrite !Hname. destruct type; simpl; repeat split; try done.
  - split; [done|]. split; [done|]. done.
Qed.
End ExportTheorems.

Lemma export_always_uses_pdf_endpoint_witness :
  requests_of
    (handleExport (fun _ : PostRequest nat => Some 7%nat) 1700000000000
       {| selectedAsset := Some sample_asset; forecast := Some 1%nat |} Csv)
  = [{| post_url := "/export/pdf"; post_data := 1%nat;
        post_type := DocForecast |}]
  /\ downloads_of
       (handleExport (fun _ : PostRequest nat => Some 7%nat) 1700000000000
          {| selectedAsset := Some sample_asset; forecast := Some 1%nat |} Csv)
     = [(7%nat, "forecast-AAPL-1700000000000.csv")]
  /\ downloads_of
       (handleExport (fun _ : PostRequest nat => Some 7%nat) 1700000000000
          {| selectedAsset := Some sample_asset; forecast := Some 1%nat |} Pdf)
     = [(7%nat, "forecast-AAPL-1700000000000.pdf")].
Proof.
  destruct (export_always_uses_pdf_endpoint
              (fun _ : PostRequest nat => Some 7%nat) 1700000000000
              {| selectedAsset := Some sample_asset; forecast := Some 1%nat |})
    as (f & Hf & _ & Hall); [discriminate|].
  destruct (Hall Csv) as (Hreq & _ & Hdl); [simpl; repeat constructor|].
  injection Hf as <-.
  destruct (Hdl 7%nat eq_refl) as (_ & _ & Hcsv).
  destruct (Hcsv eq_refl) as [Hcsv_file Hpdf_file].
  split; [exact Hreq|]. split.
  - rewrite Hcsv_file. reflexivity.
  - rewrite Hpdf_file. reflexivity.
Defined.

(** The file a CSV export of the sample state saves. *)
Example export_csv_file_name :
  downloads_of
    (handleExport (fun _ : PostRequest nat => Some 7%nat) 1700000000000
       {| selectedAsset := Some sample_asset; forecast := Some 1%nat |} Csv)
  = [(7%nat, "forecast-AAPL-1700000000000.csv")].
Proof. reflexivity. Qed.

(** ** Asset search *)

Section SearchTheorems.
Variable encodeURIComponent : jsstring -> option jsstring.
Variable api_get : jsstring -> option (list Asset).

(** C10.  A query whose trimmed length is below 2 sends no request, empties
    the search results and hides the dropdown; and a run that sends a
    request is a run on a query of trimmed length at least 2. *)
Theorem short_query_searches_nothing (query : jsstring) (st : SearchState) :
  let '(effects, st') := debouncedSearch encodeURIComponent api_get query st in
  ((length (trim query) < 2)%nat ->
     search_requests effects = []
     /\ effects = []
     /\ searchResults st' = []
     /\ showResults st' = false)
  /\ (search_requests effects <> [] -> (2 <= length (trim query))%nat).
Proof.
  unfold debouncedSearch.
  destruct (Nat.ltb_spec (length (trim query)) 2) as [Hshort|Hlong].
  - split; [done|]. simpl. done.
  - destruct (searchAssets _ _ query) as [sent response].
    destruct response; (split; [lia|done]).
Qed.
End SearchTheorems.

Lemma short_query_searches_nothing_witness :
  debouncedSearch Some (fun _ => Some [sample_asset]) (js "  a ")
    {| searchResults := [sample_asset]; isLoading := false;
       showResults := true |}
  = ([], {| searchResults := []; isLoading := false; showResults := false |})
  /\ search_requests
       (fst (debouncedSearch Some (fun _ => Some [sample_asset]) (js " ab ")
               {| searchResults := []; isLoading := false;
                  showResults := false |}))
     = [js "/assets/search?q= ab "].
Proof.
  pose proof (short_query_searches_nothing Some (fun _ => Some [sample_asset])
                (js "  a ")
                {| searchResults := [sample_asset]; isLoading := false;
                   showResults := true |}) as Hshort.
  split; [|reflexivity].
  destruct (debouncedSearch _ _ _ _) as [effects st'] eqn:Hrun.
  destruct Hshort as [Hshort _].
  destruct Hshort as (_ & -> & _ & _); [vm_compute; lia|].
  vm_compute in Hrun. by injection Hrun as <-.
Defined.

(** ** Signal Blender *)

Lemma clamp_bounds (lo hi x : Q) :
  (lo <= hi)%Q -> (lo <= clamp lo hi x)%Q /\ (clamp lo hi x <= hi)%Q.
Proof.
  intros Hlohi. unfold clamp.
  destruct (Qlt_le_dec x lo) as [Hlt|Hge].
  - split; [apply Qle_refl|done].
  - destruct (Qlt_le_dec hi x) as [Hhi|Hle].
    + split; [done|apply Qle_refl].
    + split; done.
Qed.

Lemma clamp_cases (lo hi x : Q) :
  (lo <= hi)%Q ->
  ((x < lo)%Q -> clamp lo hi x = lo)
  /\ ((hi < x)%Q -> clamp lo hi x = hi)
  /\ ((lo <= x)%Q -> (x <= hi)%Q -> clamp lo hi x = x).
Proof.
  intros Hlohi. unfold clamp. split; [|split].
  - intros Hlt. destruct (Qlt_le_dec x lo) as [|Hge]; [done|].
    exfalso. by eapply Qlt_not_le.
  - intros Hgt. destruct (Qlt_le_dec x lo) as [Hlt|Hge].
    + exfalso. apply (Qlt_not_le _ _ Hgt).
      apply Qlt_le_weak. by eapply Qlt_le_trans.
    + destruct (Qlt_le_dec hi x) as [|Hle]; [done|].
      exfalso. by eapply Qlt_not_le.
  - intros Hge Hle. destruct (Qlt_le_dec x lo) as [Hlt|_].
    + exfalso. by eapply Qlt_not_le.
    + destruct (Qlt_le_dec hi x) as [Hgt|_]; [|done].
      exfalso. by eapply Qlt_not_le.
Qed.

(** C4.  The blended confidence always lies in [0,100]: it is the weighted
    score when that lies in the interval, 0 when the score is below and
    100 when it is above.  The reward:risk ratio is null exactly when the
    implied risk is zero, and reward divided by risk otherwise (so no
    number, zero or other, ever stands for a division by zero). *)
Theorem confidence_clamped_and_ratio_null (input : BlendInput)
    (reward risk : Q) :
  ((0 <= blend_confidence input)%Q /\ (blend_confidence input <= 100)%Q)
  /\ ((blend_raw input < 0)%Q -> blend_confidence input = 0%Q)
  /\ ((100 < blend_raw input)%Q -> blend_confidence input = 100%Q)
  /\ ((0 <= blend_raw input)%Q -> (blend_raw input <= 100)%Q ->
      blend_confidence input = blend_raw input)
  /\ ((risk == 0)%Q -> reward_risk_ratio reward risk = None)
  /\ (~ (risk == 0)%Q ->
      reward_risk_ratio reward risk = Some (reward / risk)%Q).
Proof.
  split; [|split; [|split; [|split; [|split]]]].
  - unfold blend_confidence. apply clamp_bounds. done.
  - apply clamp_cases. done.
  - apply clamp_cases. done.
  - apply clamp_cases. done.
  - intros Hzero. unfold reward_risk_ratio.
    apply Qeq_bool_iff in Hzero. by rewrite Hzero.
  - intros Hnz. unfold reward_risk_ratio.
    destruct (Qeq_bool risk 0) eqn:Heq; [|done].
    apply Qeq_bool_iff in Heq. done.
Qed.

Lemma confidence_clamped_and_ratio_null_witness :
  blend_confidence {| rule_strength := 3; ml_signal := None;
                      rule_weight := 1 # 2; ml_weight := 1 # 2 |} = 100%Q
  /\ reward_risk_ratio 5 (0 # 7) = None
  /\ reward_risk_ratio 6 3 = Some (6 / 3)%Q.
Proof.
  pose proof (confidence_clamped_and_ratio_null
                {| rule_strength := 3; ml_signal := None;
                   rule_weight := 1 # 2; ml_weight := 1 # 2 |} 5 (0 # 7))
    as (_ & _ & Hhi & _ & Hnull & _).
  pose proof (confidence_clamped_and_ratio_null
                {| rule_strength := 3; ml_signal := None;
                   rule_weight := 1 # 2; ml_weight := 1 # 2 |} 6 3)
    as (_ & _ & _ & _ & _ & Hsome).
  split; [apply Hhi; reflexivity|]. split.
  - apply Hnull. reflexivity.
  - apply Hsome. discriminate.
Defined.

(** ** Backtest Simulator: the relation and the function agree *)

Section BacktestFacts.
Variable E : Engine.
Variable strategy : Strategy.
Variable capital : Q.

Lemma step_rel_sim_step seen bar st st' :
  step_rel E strategy capital seen bar st st'
  <-> st' = sim_step E strategy capital seen bar st.
Proof.
  unfold sim_step. split.
  - intros Hstep. destruct Hstep as [st dir Hp Hs|st Hp Hs|st p why Hp Hs|st p Hp Hs];
      rewrite Hp, Hs; done.
  - intros ->. destruct (phase st) as [|p] eqn:Hp.
    + destruct (entry_signal E strategy seen) as [dir|] eqn:Hs.
      * by apply step_enter.
      * by apply step_wait.
    + destruct (exit_signal E strategy p seen) as [why|] eqn:Hs.
      * by apply step_exit.
      * by eapply step_hold.
Qed.

Lemma run_rel_sim_run seen rest st st' :
  run_rel E strategy capital seen rest st st'
  <-> st' = sim_run E strategy capital seen rest st.
Proof.
  split.
  - intros Hrun. induction Hrun as [|seen bar rest st st1 st2 Hstep _ IH];
      [done|].
    apply step_rel_sim_step in Hstep. subst st1. exact IH.
  - revert seen st st'. induction rest as [|bar rest IH]; intros seen st st' ->.
    + constructor.
    + simpl. eapply run_bar; [by apply step_rel_sim_step|by apply IH].
Qed.

Lemma finish_rel_sim_finish series st ts :
  finish_rel E series st ts -> ts = sim_finish E series st.
Proof.
  unfold sim_finish. intros [st0 Hp|st0 p bar Hp Hl]; rewrite Hp; [done|].
  by rewrite Hl.
Qed.

Lemma sim_finish_rel series st :
  (series = [] -> phase st = Flat) ->
  finish_rel E series st (sim_finish E series st).
Proof.
  intros Hnil. unfold sim_finish. destruct (phase st) as [|p] eqn:Hp.
  - by apply finish_flat.
  - destruct (last series) as [bar|] eqn:Hl.
    + by eapply finish_forced.
    + apply last_None in Hl. by specialize (Hnil Hl).
Qed.

Lemma backtest_rel_backtest series asset :
  backtest_rel E strategy capital series asset
    (backtest E series strategy asset capital).
Proof.
  unfold backtest. destruct (valid_series E series) eqn:Hvalid.
  - eapply backtest_completed; [done|by apply run_rel_sim_run|].
    apply sim_finish_rel. by intros ->.
  - by apply backtest_rejected.
Qed.

Lemma backtest_rel_unique series asset outcome :
  backtest_rel E strategy capital series asset outcome ->
  outcome = backtest E series strategy asset capital.
Proof.
  unfold backtest. intros [Hinvalid|st ts Hvalid Hrun Hfin].
  - by rewrite Hinvalid.
  - rewrite Hvalid. apply run_rel_sim_run in Hrun. subst st.
    by rewrite (finish_rel_sim_finish _ _ _ Hfin).
Qed.
End BacktestFacts.

(** C5.  The simulation is deterministic: two runs of the state machine on
    the same price series, strategy and initial capital end in the same
    outcome, equal in every field and in the ordered trade list; and every
    input has an outcome, the one [backtest] computes. *)
Theorem backtest_deterministic (E : Engine) (series : list (PriceData Q))
    (strategy : Strategy) (asset : Asset) (initialCapital : Q) :
  (forall outcome1 outcome2,
     backtest_rel E strategy initialCapital series asset outcome1 ->
     backtest_rel E strategy initialCapital series asset outcome2 ->
     outcome1 = outcome2)
  /\ backtest_rel E strategy initialCapital series asset
       (backtest E series strategy asset initialCapital).
Proof.
  split.
  - intros outcome1 outcome2 H1 H2.
    apply backtest_rel_unique in H1, H2. congruence.
  - apply backtest_rel_backtest.
Qed.

Lemma backtest_deterministic_witness :
  exists outcome,
    backtest_rel eager_engine sample_strategy 1000
      (rising_series (num:=Q) 3) sample_asset outcome
    /\ outcome = backtest eager_engine (rising_series (num:=Q) 3)
                   sample_strategy sample_asset 1000.
Proof.
  destruct (backtest_deterministic eager_engine (rising_series (num:=Q) 3)
              sample_strategy sample_asset 1000) as [Hunique Htotal].
  eexists. split.
  - eapply backtest_completed; [reflexivity| |].
    + repeat (eapply run_bar; [apply step_rel_sim_step; reflexivity|]).
      apply run_done.
    + eapply finish_forced; reflexivity.
  - apply Hunique; [|exact Htotal].
    eapply backtest_completed; [reflexivity| |].
    + repeat (eapply run_bar; [apply step_rel_sim_step; reflexivity|]).
      apply run_done.
    + eapply finish_forced; reflexivity.
Defined.

(** ** Backtest Simulator: win rate *)

Lemma is_win_positive (t : TradeResult) :
  is_win t = true <-> (0 < pnl t)%Q.
Proof.
  unfold is_win. rewrite negb_true_iff. split.
  - intros Hle. apply Qnot_le_lt. intros Hneg.
    apply Qle_bool_iff in Hneg. congruence.
  - intros Hpos. destruct (Qle_bool (pnl t) 0) eqn:Hle; [|done].
    apply Qle_bool_iff in Hle. exfalso. by eapply Qlt_not_le.
Qed.

Lemma count_wins_filter (ts : list TradeResult) :
  length (filter (fun t => is_win t = true) ts) = count_wins ts.
Proof.
  induction ts as [|t ts IH]; [done|].
  rewrite filter_cons. simpl. destruct (Qlt_le_dec 0 (pnl t)) as [Hpos|Hneg].
  - rewrite decide_True by (by apply is_win_positive). simpl. by rewrite IH.
  - rewrite decide_False; [by rewrite IH|].
    rewrite is_win_positive. by apply Qle_not_lt.
Qed.

Lemma backtest_completed_trades E series strategy asset capital result :
  backtest E series strategy asset capital = Completed result ->
  valid_series E series = true
  /\ result = summarize E series strategy asset capital
                (sim_finish E series
                   (sim_run E strategy capital [] series initial_sim)).
Proof.
  unfold backtest. destruct (valid_series E series); [|discriminate].
  by intros [= <-].
Qed.

(** C6.  In every result of a backtest, [totalTrades] is the number of
    recorded trades; when it is zero the win rate is 0; otherwise the win
    rate is, as a rational number, the number of trades with positive P&L
    over [totalTrades]. *)
Theorem win_rate_is_wins_over_trades E series strategy asset capital result :
  backtest E series strategy asset capital = Completed result ->
  totalTrades result = length (trades result)
  /\ (totalTrades result = 0%nat -> winRate result = 0%Q)
  /\ ((0 < totalTrades result)%nat ->
      winRate result
      = (inject_Z (Z.of_nat (count_wins (trades result)))
         / inject_Z (Z.of_nat (totalTrades result)))%Q
      /\ (winRate result * inject_Z (Z.of_nat (totalTrades result))
          == inject_Z (Z.of_nat (count_wins (trades result))))%Q).
Proof.
  intros Hrun. apply backtest_completed_trades in Hrun as [_ ->].
  simpl. set (ts := sim_finish _ _ _). clearbody ts.
  split; [done|]. unfold win_rate. split.
  - intros Hzero. by rewrite Hzero.
  - intros Hpos. destruct (length ts) as [|n] eqn:Hlen; [lia|].
    rewrite count_wins_filter. split; [done|].
    field. intros Hz. unfold Qeq in Hz. simpl in Hz. lia.
Qed.

Lemma win_rate_is_wins_over_trades_witness :
  exists result,
    backtest eager_engine (rising_series (num:=Q) 3) sample_strategy
      sample_asset 1000 = Completed result
    /\ totalTrades result = 2%nat
    /\ winRate result = (1 / 2)%Q.
Proof.
  eexists. split; [reflexivity|].
  edestruct (win_rate_is_wins_over_trades eager_engine
               (rising_series (num:=Q) 3) sample_strategy sample_asset 1000)
    as (Htotal & _ & Hrate); [reflexivity|].
  split; [exact Htotal|].
  destruct Hrate as [Hrate _]; [rewrite Htotal; simpl; lia|].
  rewrite Hrate. reflexivity.
Defined.

(** ** Backtest Simulator: one position at a time *)

Lemma sequential_nil : sequential [].
Proof. intros i j a b _ Ha. by rewrite lookup_nil in Ha. Qed.

Lemma sequential_snoc (ts : list TradeResult) (x : TradeResult) :
  sequential ts ->
  Forall (fun t => exitDate t < entryDate x) ts ->
  sequential (ts ++ [x]).
Proof.
  intros Hseq Hall i j a b Hij Ha Hb.
  assert (Hj : (j < length (ts ++ [x]))%nat) by (by eapply lookup_lt_Some).
  rewrite length_app in Hj. simpl in Hj.
  rewrite lookup_app_l in Ha by lia.
  destruct (decide (j < length ts)%nat) as [Hlt|Hge].
  - rewrite lookup_app_l in Hb by done. exact (Hseq i j a b Hij Ha Hb).
  - rewrite lookup_app_r in Hb by lia.
    replace (j - length ts)%nat with 0%nat in Hb by lia.
    injection Hb as <-.
    rewrite Forall_forall in Hall. apply Hall.
    by eapply list_elem_of_lookup_2.
Qed.

Lemma strictly_increasing_cons (a b : Z) (later : list Z) :
  strictly_increasing (a :: b :: later)
  = (a <? b) && strictly_increasing (b :: later).
Proof. reflexivity. Qed.

Lemma sim_inv_initial now : sim_inv now initial_sim.
Proof. split; [constructor|]. split; [apply sequential_nil|done]. Qed.

Section BacktestInvariant.
Variable E : Engine.
Variable strategy : Strategy.
Variable capital : Q.

Lemma sim_inv_step now seen bar st :
  sim_inv now st ->
  now < timestamp bar ->
  sim_inv (timestamp bar) (sim_step E strategy capital seen bar st).
Proof.
  intros (Hclosed & Hseq & Hphase) Hnow. unfold sim_step.
  assert (Hclosed' : Forall (fun t => entryDate t < exitDate t
                                      /\ exitDate t <= timestamp bar)
                            (closed st)).
  { eapply Forall_impl; [exact Hclosed|]. simpl. intros t [? ?]. lia. }
  destruct (phase st) as [|p] eqn:Hp.
  - destruct (entry_signal E strategy seen) as [dir|].
    + split; [done|]. split; [done|]. simpl. split; [lia|].
      eapply Forall_impl; [exact Hclosed|]. simpl. intros t [? ?]. lia.
    + split; [done|]. split; [done|]. by rewrite Hp.
  - destruct Hphase as [Hentered Hbefore].
    destruct (exit_signal E strategy p seen) as [why|].
    + split; [|split; [|done]]; simpl.
      * apply Forall_app. split; [done|].
        constructor; [|constructor]. simpl. lia.
      * by apply sequential_snoc.
    + split; [done|]. split; [done|]. rewrite Hp. split; [lia|done].
Qed.

Lemma sim_inv_run rest : forall now seen st,
  sim_inv now st ->
  strictly_increasing (now :: (timestamp <$> rest)) = true ->
  sim_inv (default now (timestamp <$> last rest))
          (sim_run E strategy capital seen rest st).
Proof.
  induction rest as [|bar rest IH]; intros now seen st Hinv Hinc; [done|].
  rewrite fmap_cons, strictly_increasing_cons in Hinc.
  apply andb_true_iff in Hinc as [Hnow Hinc].
  apply Z.ltb_lt in Hnow.
  simpl sim_run.
  replace (default now (timestamp <$> last (bar :: rest)))
    with (default (timestamp bar) (timestamp <$> last rest)).
  - apply (IH (timestamp bar)); [by apply (sim_inv_step now)|exact Hinc].
  - destruct rest as [|bar' rest']; [reflexivity|]. rewrite last_cons_cons.
    destruct (last (bar' :: rest')) eqn:Hlast; [done|].
    by apply last_None in Hlast.
Qed.

(** The trades of a run on a series with increasing timestamps. *)
Lemma sim_finish_trades series :
  strictly_increasing (timestamp <$> series) = true ->
  sequential (sim_finish E series
                (sim_run E strategy capital [] series initial_sim))
  /\ Forall (fun t =>
       entryDate t <= exitDate t
       /\ (entryDate t = exitDate t ->
           Some (exitDate t) = timestamp <$> last series
           /\ reason t = "period end"))
       (sim_finish E series
          (sim_run E strategy capital [] series initial_sim)).
Proof.
  intros Hinc. destruct series as [|first later].
  { split; [apply sequential_nil|constructor]. }
  assert (Hinc' : strictly_increasing
                    ((timestamp first - 1) :: (timestamp <$> first :: later))
                  = true).
  { rewrite fmap_cons, strictly_increasing_cons.
    apply andb_true_iff. split; [apply Z.ltb_lt; lia|exact Hinc]. }
  pose proof (sim_inv_run (first :: later) _ [] initial_sim
                (sim_inv_initial _) Hinc') as Hinv.
  remember (first :: later) as series eqn:Hseries.
  unfold sim_finish.
  destruct (last series) as [final|] eqn:Hlast;
    [|apply last_None in Hlast; congruence].
  simpl in Hinv. destruct Hinv as (Hclosed & Hseq & Hphase).
  assert (Hstrict : Forall (fun t =>
            entryDate t <= exitDate t
            /\ (entryDate t = exitDate t ->
                Some (exitDate t) = Some (timestamp final)
                /\ reason t = "period end"))
          (closed (sim_run E strategy capital [] series initial_sim))).
  { eapply Forall_impl; [exact Hclosed|]. simpl. intros t [? ?].
    split; lia. }
  destruct (phase _) as [|p]; simpl; [done|].
  destruct Hphase as [Hentered Hbefore]. split.
  - by apply sequential_snoc.
  - apply Forall_app. split; [done|].
    constructor; [|constructor]. simpl. split; [lia|done].
Qed.
End BacktestInvariant.

Lemma valid_series_increasing E series :
  valid_series E series = true ->
  strictly_increasing (timestamp <$> series) = true.
Proof.
  unfold valid_series. intros Hvalid.
  apply andb_true_iff in Hvalid as [Hvalid _].
  by apply andb_true_iff in Hvalid as [_ Hvalid].
Qed.

(** With entry at the bar's close, a position entered on the final bar is
    force-closed on that same bar: on a one-bar series whose entry rule
    fires, the one recorded trade has its exit date equal to its entry
    date. *)
Lemma exit_on_entry_bar_at_period_end :
  exists result t,
    backtest eager_engine (rising_series (num:=Q) 1) sample_strategy
      sample_asset 1000 = Completed result
    /\ trades result = [t]
    /\ reason t = "period end"
    /\ ~ (exitDate t > entryDate t).
Proof.
  eexists _, _. split; [reflexivity|]. split; [reflexivity|].
  split; [reflexivity|]. simpl. lia.
Qed.

(** With entry at the bar's close, the first of the two entry policies the
    specification allows: in every result of a backtest no two recorded
    trades are open at the same time, and every recorded trade has
    [exitDate >= entryDate]; the two dates are equal only for a position
    entered on the final bar of the series and force-closed there with
    reason "period end". *)
Theorem one_position_at_a_time E series strategy asset capital result :
  backtest E series strategy asset capital = Completed result ->
  (forall T i j a b,
     trades result !! i = Some a -> trades result !! j = Some b ->
     open_at T a -> open_at T b -> i = j)
  /\ (forall t,
        t ∈ trades result ->
        entryDate t <= exitDate t
        /\ (entryDate t = exitDate t ->
            Some (exitDate t) = timestamp <$> last series
            /\ reason t = "period end")).
Proof.
  intros Hrun.
  apply backtest_completed_trades in Hrun as [Hvalid ->]. simpl.
  apply valid_series_increasing in Hvalid.
  destruct (sim_finish_trades E strategy capital series Hvalid)
    as [Hseq Hall].
  set (ts := sim_finish _ _ _) in *. clearbody ts.
  rewrite Forall_forall in Hall. split.
  - intros T i j a b Ha Hb [Ha1 Ha2] [Hb1 Hb2].
    destruct (Nat.lt_trichotomy i j) as [Hlt|[Heq|Hgt]]; [|done|].
    + pose proof (Hseq i j a b Hlt Ha Hb). lia.
    + pose proof (Hseq j i b a Hgt Hb Ha). lia.
  - intros t Ht. by apply Hall.
Qed.

Lemma one_position_at_a_time_witness :
  exists result,
    backtest eager_engine (rising_series (num:=Q) 3) sample_strategy
      sample_asset 1000 = Completed result
    /\ forall t, t ∈ trades result -> entryDate t <= exitDate t.
Proof.
  eexists. split; [reflexivity|]. intros t Ht.
  edestruct (one_position_at_a_time eager_engine (rising_series (num:=Q) 3)
               sample_strategy sample_asset 1000) as [_ Hdates];
    [reflexivity|].
  by apply Hdates.
Defined.

(* --------------------------------------------------------------------- *)
(** ** Further properties of the response mappers                         *)
(* --------------------------------------------------------------------- *)










(** X4.  The [period] of a [runBacktest] result has the two properties
    [start] and [end] and no other: whatever else the response's period
    carried is dropped.  The result's own property names are the
    response's together with [period] and [trades]. *)
Theorem backtest_period_rebuilt (data out : JsVal) :
  runBacktest data = Some out ->
  exists props period,
    out = JObject props
    /\ props !! "period" = Some (JObject period)
    /\ dom period = {["start"; "end"]}
    /\ (forall k, k <> "start" -> k <> "end" -> period !! k = None)
    /\ dom props = {["period"; "trades"]} ∪ dom (spread data).
Proof.
  unfold runBacktest. intros Hout.
  destruct (get_prop data "period") as [period|]; [|done]. simpl in Hout.
  destruct (get_prop period "start") as [start|]; [|done]. simpl in Hout.
  destruct (get_prop period "end") as [end_|]; [|done]. simpl in Hout.
  destruct (get_prop data "trades") as [tv|]; [|done]. simpl in Hout.
  destruct (array_map backtest_trade tv) as [mapped|]; [|done].
  simpl in Hout. injection Hout as <-.
  eexists _, _. split; [done|].
  split; [rewrite lookup_insert_ne by done; by rewrite lookup_insert_eq|].
  split.
  { rewrite !dom_insert_L, dom_empty_L. apply set_eq. intros k.
    rewrite !elem_of_union, !elem_of_singleton, elem_of_empty. tauto. }
  split; [intros k Hs He; by rewrite !lookup_insert_ne|].
  rewrite !dom_insert_L. apply set_eq. intros k.
  rewrite !elem_of_union, !elem_of_singleton. tauto.
Qed.

Lemma backtest_period_rebuilt_witness :
  exists props period,
    runBacktest labelled_backtest_response = Some (JObject props)
    /\ props !! "period" = Some (JObject period)
    /\ period !! "label" = None.
Proof.
  destruct (backtest_period_rebuilt labelled_backtest_response _ eq_refl)
    as (props & period & Hout & Hperiod & _ & Hnone & _).
  exists props, period. split; [|split].
  - rewrite <- Hout. reflexivity.
  - exact Hperiod.
  - by apply Hnone.
Defined.



(* --------------------------------------------------------------------- *)
(** ** Further properties of the chart                                    *)
(* --------------------------------------------------------------------- *)

Section ChartMore.
Context {num : Type} `{Number num}.
Implicit Types priceData : list (PriceData num).

Lemma sum_closes_ext priceData1 priceData2 first count :
  (forall k, (first <= k < first + count)%nat ->
             close_at priceData1 k = close_at priceData2 k) ->
  sum_closes priceData1 first count = sum_closes priceData2 first count.
Proof.
  induction count as [|c IH]; intros Hext; simpl; [done|].
  rewrite IH by (intros k Hk; apply Hext; lia).
  by rewrite (Hext (first + c)%nat) by lia.
Qed.

Lemma close_at_insert_ne priceData j bar k :
  j <> k -> close_at (<[j:=bar]> priceData) k = close_at priceData k.
Proof. intros Hne. unfold close_at. by rewrite list_lookup_insert_ne. Qed.

Lemma sma_insert_outside (n : nat) priceData i j bar :
  (1 <= n)%nat -> (i < length priceData)%nat ->
  (j + n <= i \/ i < j)%nat ->
  sma (Z.of_nat n) (<[j:=bar]> priceData) i = sma (Z.of_nat n) priceData i.
Proof.
  intros Hn Hlen Hout.
  destruct (decide (n - 1 <= i)%nat) as [Hdef|Hundef].
  - rewrite !sma_defined by (rewrite ?length_insert; lia).
    f_equal. unfold mean_closes. f_equal.
    apply sum_closes_ext. intros k Hk. apply close_at_insert_ne. lia.
  - rewrite !sma_undefined by lia. done.
Qed.

(** X6.  The moving average of bar [i] over [n] bars reads the window
    [i-n+1 .. i] and nothing else: replacing any bar before the window or
    after bar [i] leaves it unchanged.  In the chart, [sma20] of bar [i] is
    unchanged by replacing a bar more than 19 places before [i] or any
    bar after [i], and [sma50] by one more than 49 places before or after
    [i]. *)
Theorem sma_reads_only_its_window priceData i j bar :
  (i < length priceData)%nat ->
  (forall n : nat,
     (1 <= n)%nat -> (j + n <= i \/ i < j)%nat ->
     sma (Z.of_nat n) (<[j:=bar]> priceData) i = sma (Z.of_nat n) priceData i)
  /\ ((j + 20 <= i \/ i < j)%nat ->
      (sma20 ∘ indicators) <$> chartData (<[j:=bar]> priceData) !! i
      = (sma20 ∘ indicators) <$> chartData priceData !! i)
  /\ ((j + 50 <= i \/ i < j)%nat ->
      (sma50 ∘ indicators) <$> chartData (<[j:=bar]> priceData) !! i
      = (sma50 ∘ indicators) <$> chartData priceData !! i).
Proof.
  intros Hlen.
  split; [intros n Hn Hout; by apply sma_insert_outside|].
  destruct (lookup_lt_is_Some_2 priceData i Hlen) as [p Hp].
  destruct (lookup_lt_is_Some_2 (<[j:=bar]> priceData) i) as [p' Hp'];
    [by rewrite length_insert|].
  split; intros Hout; rewrite !chartData_lookup, Hp, Hp'; simpl; f_equal.
  - apply (sma_insert_outside 20); [lia|done|done].
  - apply (sma_insert_outside 50); [lia|done|done].
Qed.

(** X7.  The rows the [TradingChart] component plots for the chart data of
    a price series: one row per bar, in order, carrying the bar; the SMA 20
    line has a value exactly from bar 19 on and the SMA 50 line exactly
    from bar 49 on, so a series shorter than 20 bars shows no SMA 20 line
    at all; the RSI line is the constant 50 and the VWAP line is the
    bar's own [vwap]. *)
Theorem chart_rows_of_series priceData :
  length (chart_rows (chartData priceData)) = length priceData
  /\ (forall i row,
        chart_rows (chartData priceData) !! i = Some row ->
        priceData !! i = Some (price (row_item row))
        /\ row_timestamp row = timestamp (price (row_item row))
        /\ (is_Some (row_sma20 row) <-> (19 <= i)%nat)
        /\ (is_Some (row_sma50 row) <-> (49 <= i)%nat)
        /\ row_rsi row = Some (lit 50)
        /\ row_vwap row = vwap (price (row_item row)))
  /\ ((length priceData < 20)%nat ->
      Forall (fun row => row_sma20 row = None)
             (chart_rows (chartData priceData))).
Proof.
  assert (Hrow : forall i row,
            chart_rows (chartData priceData) !! i = Some row ->
            priceData !! i = Some (price (row_item row))
            /\ row_timestamp row = timestamp (price (row_item row))
            /\ row_sma20 row = sma 20 priceData i
            /\ row_sma50 row = sma 50 priceData i
            /\ row_rsi row = Some (lit 50)
            /\ row_vwap row = vwap (price (row_item row))).
  { intros i row Hi. unfold chart_rows in Hi.
    rewrite list_lookup_imap, chartData_lookup in Hi.
    destruct (priceData !! i) as [p|]; [|done].
    simpl in Hi. by injection Hi as <-. }
  split; [|split].
  - unfold chart_rows, chartData. by rewrite !length_imap.
  - intros i row Hi.
    destruct (Hrow i row Hi) as (Hp & Ht & H20 & H50 & Hrsi & Hvwap).
    split; [done|]. split; [done|].
    assert (Hlen : (i < length priceData)%nat) by (by eapply lookup_lt_Some).
    split; [|split; [|done]].
    + rewrite H20. split.
      * intros Hsome. destruct (decide (19 <= i)%nat) as [|Hlt]; [done|].
        rewrite (sma_undefined 20 priceData i) in Hsome by lia.
        by destruct Hsome.
      * intros Hge. rewrite (sma_defined 20 priceData i) by lia. by eexists.
    + rewrite H50. split.
      * intros Hsome. destruct (decide (49 <= i)%nat) as [|Hlt]; [done|].
        rewrite (sma_undefined 50 priceData i) in Hsome by lia.
        by destruct Hsome.
      * intros Hge. rewrite (sma_defined 50 priceData i) by lia. by eexists.
  - intros Hshort. apply Forall_lookup. intros i row Hi.
    destruct (Hrow i row Hi) as (Hp & _ & H20 & _).
    apply lookup_lt_Some in Hp. rewrite H20.
    apply (sma_undefined 20 priceData i). lia.
Qed.
End ChartMore.

Lemma sma_reads_only_its_window_witness :
  sma 3 (<[0%nat := flat_bar 0 99]> (rising_series (num:=float) 5)) 4
  = sma 3 (rising_series (num:=float) 5) 4.
Proof.
  destruct (sma_reads_only_its_window (num:=float) (rising_series 5)
              4 0 (flat_bar 0 99)) as [Hsma _]; [simpl; lia|].
  apply (Hsma 3%nat); lia.
Defined.

Lemma chart_rows_of_series_witness :
  Forall (fun row => row_sma20 row = None)
         (chart_rows (chartData (rising_series (num:=float) 5))).
Proof.
  destruct (chart_rows_of_series (rising_series (num:=float) 5))
    as (_ & _ & Hshort).
  apply Hshort. simpl. lia.
Defined.

(** X8.  The price shown in the chart header is never NaN: it is the last
    bar's close when that is a number other than zero, and it is 0 when
    the last bar's close is NaN or zero and when the chart is empty. *)
Theorem header_price_is_a_number (chart : list (ChartData float)) :
  PrimFloat.is_nan (header_price chart) = false
  /\ (chart = [] -> header_price chart = 0%float)
  /\ (forall item,
        last chart = Some item ->
        (PrimFloat.is_nan (close (price item)) = false
         /\ PrimFloat.eqb (close (price item)) 0 = false ->
         header_price chart = close (price item))
        /\ (PrimFloat.is_nan (close (price item)) = true
            \/ PrimFloat.eqb (close (price item)) 0 = true ->
            header_price chart = 0%float)).
Proof.
  unfold header_price, truthy_number. split; [|split].
  - destruct (last chart) as [item|]; [|reflexivity].
    destruct (PrimFloat.is_nan (close (price item))) eqn:Hnan;
      [reflexivity|].
    destruct (PrimFloat.eqb (close (price item)) 0); [reflexivity|].
    simpl. exact Hnan.
  - by intros ->.
  - intros item ->. split.
    + intros [-> ->]. reflexivity.
    + intros [->| ->]; [reflexivity|].
      by destruct (PrimFloat.is_nan (close (price item))).
Qed.

Lemma header_price_is_a_number_witness :
  header_price (chartData (rising_series (num:=float) 3)) = 3%float
  /\ header_price [{| price := flat_bar (num:=float) 0 0;
                      indicators := mkIndicators None None None None None
                                      None None None None None None |}]
     = 0%float.
Proof.
  destruct (header_price_is_a_number (chartData (rising_series 3)))
    as (_ & _ & Hlast).
  destruct (Hlast _ eq_refl) as [Htruthy _].
  destruct (header_price_is_a_number
              [{| price := flat_bar (num:=float) 0 0;
                  indicators := mkIndicators None None None None None
                                  None None None None None None |}])
    as (_ & _ & Hzero).
  destruct (Hzero _ eq_refl) as [_ Hfalsy].
  split.
  - rewrite Htruthy; [reflexivity|]. split; reflexivity.
  - apply Hfalsy. right. reflexivity.
Defined.

(** X9.  Toggling an indicator that is in [showIndicators] flips that
    indicator and no other, keeps the set of indicators, and is undone by
    toggling it again; toggles of two indicators commute. *)
Theorem toggle_indicator (key : string) (prev : gmap string bool) (b : bool) :
  prev !! key = Some b ->
  toggleIndicator key prev !! key = Some (negb b)
  /\ (forall other, other <> key ->
        toggleIndicator key prev !! other = prev !! other)
  /\ dom (toggleIndicator key prev) = dom prev
  /\ toggleIndicator key (toggleIndicator key prev) = prev
  /\ (forall other,
        toggleIndicator other (toggleIndicator key prev)
        = toggleIndicator key (toggleIndicator other prev)).
Proof.
  intros Hkey. unfold toggleIndicator. rewrite Hkey. simpl.
  split; [by rewrite lookup_insert_eq|].
  split; [intros other Hne; by rewrite lookup_insert_ne|].
  split.
  { rewrite dom_insert_L. apply set_eq. intros k.
    rewrite elem_of_union, elem_of_singleton, !elem_of_dom.
    split; [intros [->|]; [by eexists|done]|by right]. }
  split.
  { rewrite lookup_insert_eq. simpl. rewrite insert_insert_eq.
    rewrite negb_involutive. by apply insert_id. }
  intros other. destruct (decide (other = key)) as [->|Hne].
  - by rewrite Hkey.
  - rewrite !lookup_insert_ne by done. rewrite Hkey. simpl.
    by apply insert_insert_ne.
Qed.

Lemma toggle_indicator_witness :
  toggleIndicator "rsi" initial_showIndicators !! "rsi" = Some true
  /\ toggleIndicator "rsi" (toggleIndicator "rsi" initial_showIndicators)
     = initial_showIndicators.
Proof.
  destruct (toggle_indicator "rsi" initial_showIndicators false eq_refl)
    as (Hflip & _ & _ & Htwice & _).
  split; [exact Hflip|exact Htwice].
Defined.

(* --------------------------------------------------------------------- *)
(** ** Properties of the [TradingApp] handlers                            *)
(* --------------------------------------------------------------------- *)

Section TradingAppTheorems.
Context {num : Type} `{Number num} {Forecast Blob : Type}.
Variable get_prices : string -> TimeFrame -> option (list (PriceData num)).
Variable post_forecast : string -> string -> TimeFrame -> option Forecast.
Variable api_post : PostRequest Forecast -> option Blob.
Implicit Types app : TradingApp num Forecast.

(** X10.  Selecting an asset or a strategy discards the current forecast,
    whether or not the chart data loads: afterwards no export button is on
    screen, and a call of the export handler does nothing, until a new
    forecast has been generated. *)
Theorem selection_discards_forecast app asset strategy now type :
  let after_asset := snd (handleAssetSelect get_prices app asset) in
  let after_strategy := handleStrategySelect app strategy in
  (app_forecast after_asset = None
   /\ app_selectedAsset after_asset = Some asset
   /\ export_buttons (export_view after_asset) = []
   /\ handleExport api_post now (export_view after_asset) type = [])
  /\ (app_forecast after_strategy = None
      /\ app_selectedStrategy after_strategy = Some strategy
      /\ app_selectedAsset after_strategy = app_selectedAsset app
      /\ export_buttons (export_view after_strategy) = []
      /\ handleExport api_post now (export_view after_strategy) type = []).
Proof.
  simpl. split.
  - unfold handleAssetSelect.
    destruct (get_prices _ _); simpl; repeat split; done.
  - repeat split; done.
Qed.



(** X13.  The export handler in every state: every request it sends goes
    to [/export/pdf] and none to [/export/csv], whichever type was asked
    for; without a forecast it does nothing at all; and when the request
    rejects nothing is downloaded and one error is logged. *)
Theorem export_handler_edges (now : Z) (st : AppState Forecast)
    (type : ExportType) :
  let effects := handleExport api_post now st type in
  Forall (fun request => post_url request = "/export/pdf"
                         /\ post_type request = DocForecast)
         (requests_of effects)
  /\ (forecast st = None -> effects = [])
  /\ (forall f,
        forecast st = Some f ->
        api_post {| post_url := "/export/pdf"; post_data := f;
                    post_type := DocForecast |} = None ->
        downloads_of effects = []
        /\ effects = [HttpPost {| post_url := "/export/pdf"; post_data := f;
                                  post_type := DocForecast |};
                      ConsoleError "Export failed:"]).
Proof.
  simpl. unfold handleExport.
  destruct (forecast st) as [f|]; simpl.
  - destruct (api_post _) as [blob|] eqn:Hpost; simpl.
    + split; [by repeat constructor|]. split; [done|].
      intros ? [= <-] Hnone. congruence.
    + split; [by repeat constructor|]. split; [done|].
      by intros ? [= <-] _.
  - split; [constructor|]. split; done.
Qed.
End TradingAppTheorems.



Lemma export_handler_edges_witness :
  handleExport (fun _ : PostRequest nat => @None nat) 1700000000000
    {| selectedAsset := Some sample_asset; forecast := Some 1%nat |} Csv
  = [HttpPost {| post_url := "/export/pdf"; post_data := 1%nat;
                 post_type := DocForecast |};
     ConsoleError "Export failed:"].
Proof.
  destruct (export_handler_edges (fun _ : PostRequest nat => @None nat)
              1700000000000
              {| selectedAsset := Some sample_asset; forecast := Some 1%nat |}
              Csv) as (_ & _ & Hreject).
  destruct (Hreject 1%nat eq_refl eq_refl) as [_ Heffects].
  exact Heffects.
Defined.

(* --------------------------------------------------------------------- *)
(** ** Properties of the asset search                                     *)
(* --------------------------------------------------------------------- *)

Lemma trimStart_split (s : jsstring) :
  exists lead,
    s = lead ++ trimStart s /\ forallb is_js_whitespace lead = true.
Proof.
  induction s as [|c s IH]; [by exists []|]. simpl.
  destruct (is_js_whitespace c) eqn:Hc.
  - destruct IH as (lead & Hs & Hlead). exists (c :: lead). split.
    + simpl. by rewrite <- Hs.
    + simpl. by rewrite Hc.
  - by exists [].
Qed.

Lemma trimStart_head (s : jsstring) (c : N) :
  head (trimStart s) = Some c -> is_js_whitespace c = false.
Proof.
  induction s as [|d s IH]; [done|]. simpl.
  destruct (is_js_whitespace d) eqn:Hd; [done|].
  simpl. by intros [= <-].
Qed.

Lemma trimStart_fixed (s : jsstring) :
  (forall c, head s = Some c -> is_js_whitespace c = false) ->
  trimStart s = s.
Proof.
  destruct s as [|c s]; [done|]. intros Hhead. simpl.
  by rewrite (Hhead c eq_refl).
Qed.

Lemma trimStart_whitespace (s : jsstring) :
  forallb is_js_whitespace s = true -> trimStart s = [].
Proof.
  induction s as [|c s IH]; [done|]. simpl.
  intros Hall. apply andb_true_iff in Hall as [Hc Hs]. rewrite Hc. by apply IH.
Qed.

Lemma last_rev_head {A} (l : list A) : last (rev l) = head l.
Proof. destruct l as [|x l]; [done|]. simpl. by rewrite last_snoc. Qed.

Lemma forallb_rev {A} (f : A -> bool) (l : list A) :
  forallb f (rev l) = forallb f l.
Proof.
  induction l as [|x l IH]; [done|]. simpl.
  rewrite forallb_app, IH. simpl. rewrite andb_true_r. apply andb_comm.
Qed.

(** X14.  [trim] removes white space from the two ends of a string and
    nothing else: the string is a run of white space, then the trimmed
    string, then a run of white space; the trimmed string neither starts
    nor ends with white space; trimming again changes nothing; and the
    result is never longer than the string. *)
Theorem trim_strips_both_ends (s : jsstring) :
  (exists lead trail,
     s = lead ++ trim s ++ trail
     /\ forallb is_js_whitespace lead = true
     /\ forallb is_js_whitespace trail = true)
  /\ (forall c, head (trim s) = Some c -> is_js_whitespace c = false)
  /\ (forall c, last (trim s) = Some c -> is_js_whitespace c = false)
  /\ trim (trim s) = trim s
  /\ (length (trim s) <= length s)%nat.
Proof.
  unfold trim, trimEnd.
  destruct (trimStart_split s) as (lead & Hs & Hlead).
  destruct (trimStart_split (rev (trimStart s))) as (tail & Hrev & Htail).
  set (t := trimStart s) in *. set (u := trimStart (rev t)) in *.
  assert (Ht : t = rev u ++ rev tail).
  { rewrite <- (rev_involutive t), Hrev. apply rev_app_distr. }
  assert (Hlast : forall c, last (rev u) = Some c -> is_js_whitespace c = false).
  { intros c. rewrite last_rev_head. apply trimStart_head. }
  assert (Hhead : forall c, head (rev u) = Some c -> is_js_whitespace c = false).
  { intros c Hc. apply (trimStart_head s). fold t. rewrite Ht.
    apply head_app_Some. by left. }
  assert (Hdecomp : s = lead ++ rev u ++ rev tail) by (by rewrite <- Ht).
  split; [|split; [done|split; [done|split]]].
  - exists lead, (rev tail). split; [done|]. split; [done|].
    by rewrite forallb_rev.
  - rewrite (trimStart_fixed (rev u)) by done.
    rewrite rev_involutive. f_equal. apply trimStart_fixed.
    intros c. rewrite <- last_rev_head. apply Hlast.
  - apply (f_equal length) in Hdecomp. rewrite !length_app in Hdecomp. lia.
Qed.

Section SearchMore.
Variable encodeURIComponent : jsstring -> option jsstring.
Variable api_get : jsstring -> option (list Asset).

(** X15.  A query made of white space only, however long, sends no request:
    the search clears the results and hides the dropdown. *)
Theorem blank_query_searches_nothing (query : jsstring) (st : SearchState) :
  forallb is_js_whitespace query = true ->
  debouncedSearch encodeURIComponent api_get query st
  = ([], {| searchResults := []; isLoading := isLoading st;
            showResults := false |}).
Proof.
  intros Hblank. unfold debouncedSearch, trim, trimEnd.
  rewrite (trimStart_whitespace query Hblank). done.
Qed.

(** X16.  A search on a query of trimmed length at least 2 always ends with
    the loading flag off.  It sends at most one request, whose URL carries
    the encoding of the query as typed, not trimmed.  When the request
    resolves, the results are the response and the dropdown is shown; when
    the encoding throws or the request rejects, the results are emptied,
    an error is logged and the dropdown is left as it was. *)
Theorem search_run_outcome (query : jsstring) (st : SearchState) :
  (2 <= length (trim query))%nat ->
  let '(effects, st') := debouncedSearch encodeURIComponent api_get query st in
  isLoading st' = false
  /\ (forall encoded results,
        encodeURIComponent query = Some encoded ->
        api_get (js "/assets/search?q=" ++ encoded) = Some results ->
        effects = [HttpGet (js "/assets/search?q=" ++ encoded)]
        /\ searchResults st' = results
        /\ showResults st' = true)
  /\ (forall encoded,
        encodeURIComponent query = Some encoded ->
        api_get (js "/assets/search?q=" ++ encoded) = None ->
        effects = [HttpGet (js "/assets/search?q=" ++ encoded);
                   SearchConsoleError "Search error:"]
        /\ searchResults st' = []
        /\ showResults st' = showResults st)
  /\ (encodeURIComponent query = None ->
        effects = [SearchConsoleError "Search error:"]
        /\ searchResults st' = []
        /\ showResults st' = showResults st).
Proof.
  intros Hlong. unfold debouncedSearch, searchAssets.
  destruct (Nat.ltb_spec (length (trim query)) 2) as [|_]; [lia|].
  destruct (encodeURIComponent query) as [encoded|] eqn:Henc.
  - destruct (api_get _) as [results|] eqn:Hget.
    + split; [done|]. split; [|split; [|done]].
      * intros ? ? [= <-] Hres. rewrite Hget in Hres.
        injection Hres as <-. done.
      * intros ? [= <-] Hres. congruence.
    + split; [done|]. split; [|split; [|done]].
      * intros ? ? [= <-] Hres. congruence.
      * by intros ? [= <-] _.
  - split; [done|]. split; [done|]. split; done.
Qed.

(** X17.  Choosing a search result hands the asset to the parent, hides the
    dropdown and empties the query; the search that the emptied query
    sets off sends no request and leaves the dropdown hidden with no
    results. *)
Theorem choosing_a_result_ends_the_search (asset : Asset) (st : SearchState) :
  let '(chosen, query', st1) := search_handleAssetSelect asset st in
  chosen = asset
  /\ query' = []
  /\ showResults st1 = false
  /\ searchResults st1 = searchResults st
  /\ debouncedSearch encodeURIComponent api_get query' st1
     = ([], {| searchResults := []; isLoading := isLoading st;
               showResults := false |}).
Proof. simpl. repeat split; done. Qed.
End SearchMore.

Lemma blank_query_searches_nothing_witness :
  debouncedSearch Some (fun _ => Some [sample_asset]) (js "     ")
    {| searchResults := [sample_asset]; isLoading := false;
       showResults := true |}
  = ([], {| searchResults := []; isLoading := false; showResults := false |}).
Proof.
  apply (blank_query_searches_nothing Some (fun _ => Some [sample_asset])
           (js "     ")).
  reflexivity.
Defined.

Lemma search_run_outcome_witness :
  searchResults
    (snd (debouncedSearch Some (fun _ => Some [sample_asset]) (js " ab ")
            {| searchResults := []; isLoading := false;
               showResults := false |}))
  = [sample_asset].
Proof.
  pose proof (search_run_outcome Some (fun _ => Some [sample_asset])
                (js " ab ")
                {| searchResults := []; isLoading := false;
                   showResults := false |}) as Hrun.
  destruct (debouncedSearch _ _ _ _) as [effects st'].
  destruct Hrun as (_ & Hok & _); [vm_compute; lia|].
  destruct (Hok _ _ eq_refl eq_refl) as (_ & Hres & _). exact Hres.
Defined.

(* --------------------------------------------------------------------- *)
(** ** Properties of the strategy selector                                *)
(* --------------------------------------------------------------------- *)

(** X18.  The strategy filter: under 'all' every strategy is listed; under
    any other type exactly the strategies of that type are listed, in
    their original order; filtering a filtered list again changes nothing;
    and the list is empty, so that the "no strategies" notice shows,
    exactly when no strategy has the selected type. *)
Theorem strategy_filter (strategies : list Strategy) (selectedType : string) :
  filteredStrategies strategies "all" = strategies
  /\ (forall strategy,
        strategy ∈ filteredStrategies strategies selectedType
        <-> strategy ∈ strategies
            /\ (selectedType = "all"
                \/ strategy_type_text (strategy_type strategy) = selectedType))
  /\ filteredStrategies strategies selectedType `sublist_of` strategies
  /\ filteredStrategies (filteredStrategies strategies selectedType)
       selectedType
     = filteredStrategies strategies selectedType
  /\ (filteredStrategies strategies selectedType = []
      <-> Forall (fun strategy =>
                    selectedType <> "all"
                    /\ strategy_type_text (strategy_type strategy)
                       <> selectedType) strategies).
Proof.
  unfold filteredStrategies. split; [|split; [|split; [|split]]].
  - induction strategies as [|x l IH]; [done|].
    rewrite filter_cons_True by (by left). by rewrite IH.
  - intros strategy. rewrite list_elem_of_filter. tauto.
  - apply sublist_filter.
  - rewrite list_filter_filter. apply list_filter_iff. tauto.
  - induction strategies as [|x l IH]; [by split; [constructor|]|].
    rewrite filter_cons.
    destruct (decide (selectedType = "all"
                      \/ strategy_type_text (strategy_type x) = selectedType))
      as [Hx|Hx].
    + split; [done|]. intros Hall. apply Forall_cons in Hall as [[? ?] _].
      by destruct Hx.
    + split.
      * intros Hnil. constructor; [|by apply IH].
        split; intros Heq; apply Hx; [by left|by right].
      * intros Hall. apply Forall_cons in Hall as [_ Hall]. by apply IH.
Qed.

(** X19.  Loading the strategies: with no asset selected the unfiltered
    list [/strategies] is requested, and with an asset selected the
    request is [/strategies?type=] followed by the asset's type, which is
    the name of a strategy type for a crypto asset only.  The loading flag
    is off afterwards; the strategies are the response when the request
    resolves and stay as they were when it rejects. *)
Theorem load_strategies (api_get : string -> option (list Strategy))
    (selectedAsset : option Asset) (st : SelectorState) :
  let '(url, st') := loadStrategies api_get selectedAsset st in
  (selectedAsset = None -> url = "/strategies")
  /\ (forall asset,
        selectedAsset = Some asset ->
        url = "/strategies?type=" +:+ asset_type_text (asset_type asset)
        /\ (asset_type_text (asset_type asset)
              ∈ strategy_type_text <$> [Equity; Options; Futures; CryptoStrategy]
            <-> asset_type asset = Crypto))
  /\ selector_isLoading st' = false
  /\ strategies st' = default (strategies st) (api_get url).
Proof.
  unfold loadStrategies.
  set (url := getStrategies_url _).
  assert (Hurl : (selectedAsset = None -> url = "/strategies")
                 /\ forall asset, selectedAsset = Some asset ->
                      url = "/strategies?type="
                            +:+ asset_type_text (asset_type asset)).
  { subst url. split.
    - by intros ->.
    - intros asset ->. simpl. by destruct (asset_type asset). }
  destruct Hurl as [Hnone Hsome].
  assert (Hmismatch : forall t,
            asset_type_text t
              ∈ strategy_type_text <$> [Equity; Options; Futures; CryptoStrategy]
            <-> t = Crypto).
  { intros t. simpl. rewrite !elem_of_cons, elem_of_nil.
    destruct t; simpl; split; intros Ht; try done;
      try (by right; right; right; left);
      by destruct Ht as [|[|[|[|]]]]. }
  clearbody url.
  destruct (api_get url) as [data|] eqn:Hget; simpl;
    (split; [done|]); (split; [|by rewrite Hget]);
    intros asset Hasset; (split; [by apply Hsome|apply Hmismatch]).
Qed.

Lemma load_strategies_witness :
  fst (loadStrategies (fun _ => None) (Some sample_asset)
         {| strategies := [sample_strategy]; selector_isLoading := true |})
  = "/strategies?type=stock".
Proof.
  pose proof (load_strategies (fun _ => None) (Some sample_asset)
                {| strategies := [sample_strategy];
                   selector_isLoading := true |}) as Hload.
  destruct (loadStrategies _ _ _) as [url st'].
  destruct Hload as (_ & Hsome & _).
  destruct (Hsome sample_asset eq_refl) as [Hurl _]. exact Hurl.
Defined.

(* --------------------------------------------------------------------- *)
(** ** Properties of the forecast card                                    *)
(* --------------------------------------------------------------------- *)

Section ForecastDisplayTheorems.
Context {num : Type} `{Number num}.

End ForecastDisplayTheorems.
